(** * ftpserver: the session command loop and the server registry

    A shallow embedding of [server/client_handler.go] and
    [server/server.go], together with the driver interface file that
    declares [ServerDriver], [ClientContext] and [Settings].

    Layout:
    - [GoStrings]: the functions of Go's [strings] package that
      [parseLine] and [HandleCommands] call, on byte strings;
    - the data model ([Settings], [clientHandler], [FtpServer], [World]);
    - a state-and-trace monad [M] in which every Go statement with an
      outside effect leaves an [Event]; one goroutine runs at a time, and
      what the other goroutines do while [Stop] sleeps is a function on the
      world, as are the handler bodies, which are in other files;
    - the methods of [FtpServer] and [clientHandler];
    - a small concrete server, [Demo];
    - lemmas, the theorems about the code, and the theorems at work on
      [Demo]. *)

From Stdlib Require Import ZArith Ascii String List Lia Bool.
From stdpp Require Import base tactics option list gmap strings pretty.

Local Open Scope string_scope.
Local Open Scope Z_scope.
Local Open Scope list_scope.

(** ** Go's [strings] package *)

Module GoStrings.

(** A Go [string] is a sequence of bytes; [ascii] is an 8-bit byte. *)

(** [c < utf8.RuneSelf], that is [c < 0x80]. *)
Definition isASCII (c : ascii) : bool :=
  match c with Ascii _ _ _ _ _ _ _ b7 => negb b7 end.

(** The table [asciiSpace] of [strings]: tab, LF, VT, FF, CR, space. *)
Definition asciiSpace (c : ascii) : bool :=
  match c with
  | "009" | "010" | "011" | "012" | "013" | " " => true
  | _ => false
  end%char.

Fixpoint allBytes (f : ascii → bool) (s : string) : bool :=
  match s with
  | "" => true
  | String c s' => f c && allBytes f s'
  end.

Fixpoint mapBytes (f : ascii → ascii) (s : string) : string :=
  match s with
  | "" => ""
  | String c s' => String (f c) (mapBytes f s')
  end.

(** [s[n:]] and [s[:n]]. *)
Fixpoint sliceFrom (n : nat) (s : string) : string :=
  match n, s with
  | O, _ => s
  | S n', String _ s' => sliceFrom n' s'
  | S _, "" => ""
  end.

Fixpoint sliceTo (n : nat) (s : string) : string :=
  match n, s with
  | O, _ => ""
  | S n', String c s' => String c (sliceTo n' s')
  | S _, "" => ""
  end.

(** The last byte of [s], if any. *)
Fixpoint lastByte (s : string) : option ascii :=
  match s with
  | "" => None
  | String c "" => Some c
  | String _ s' => lastByte s'
  end.

(** [trimLeftASCII] and [trimRightASCII]: drop the bytes of the set [f]
    from the front, respectively from the back. *)
Fixpoint trimLeft (f : ascii → bool) (s : string) : string :=
  match s with
  | "" => ""
  | String c s' => if f c then trimLeft f s' else s
  end.

Fixpoint trimRight (f : ascii → bool) (s : string) : string :=
  match s with
  | "" => ""
  | String c s' =>
      match trimRight f s' with
      | "" => if f c then "" else String c ""
      | r => String c r
      end
  end.

(** Membership of a byte in an ASCII cutset. *)
Fixpoint inCutset (cutset : string) (c : ascii) : bool :=
  match cutset with
  | "" => false
  | String d cutset' => Ascii.eqb c d || inCutset cutset' c
  end.

(** [strings.Trim(s, cutset)] for a cutset of ASCII bytes, where Go works
    byte by byte: [trimLeftASCII(trimRightASCII(s, &as), &as)]. *)
Definition Trim (s cutset : string) : string :=
  trimLeft (inCutset cutset) (trimRight (inCutset cutset) s).

(** [strings.HasPrefix] and [strings.Index] ([None] is Go's [-1]). *)
Fixpoint HasPrefix (s pre : string) : bool :=
  match pre, s with
  | "", _ => true
  | String p pre', String c s' => Ascii.eqb c p && HasPrefix s' pre'
  | String _ _, "" => false
  end.

Fixpoint Index (s sep : string) : option nat :=
  if HasPrefix s sep then Some O
  else match s with
       | "" => None
       | String _ s' => S <$> Index s' sep
       end.

(** [strings.SplitN(s, sep, n)] for a non-empty [sep] and [n >= 0]
    ([genSplit]): at most [n] pieces, the last one the unsplit rest. *)
Fixpoint SplitN (s sep : string) (n : nat) : list string :=
  match n with
  | O => []
  | S O => [s]
  | S n' =>
      match Index s sep with
      | None => [s]
      | Some m => sliceTo m s :: SplitN (sliceFrom (m + String.length sep) s) sep n'
      end
  end.

(** ['a' <= c && c <= 'z'], and [c -= 'a' - 'A']. *)
Definition isLower (c : ascii) : bool :=
  let n := N_of_ascii c in ((97 <=? n) && (n <=? 122))%N.

Definition upperByte (c : ascii) : ascii :=
  if isLower c then ascii_of_N (N_of_ascii c - 32) else c.

Section Unicode.
(** What Go does once it meets a byte [>= 0x80] depends on the UTF-8
    decoder and on the tables of package [unicode]; those are taken as
    parameters of the functions below. *)

(** [strings.Map(unicode.ToUpper, s)]. *)
Variable unicodeToUpper : string → string.
(** [strings.TrimFunc(s, unicode.IsSpace)]. *)
Variable unicodeTrimFunc : string → string.
(** [strings.TrimRightFunc(s, unicode.IsSpace)]. *)
Variable unicodeTrimRightFunc : string → string.

(** [strings.ToUpper]: the ASCII-only branch is byte-wise. *)
Definition ToUpper (s : string) : string :=
  if allBytes isASCII s then mapBytes upperByte s else unicodeToUpper s.

(** The second loop of [strings.TrimSpace], on [s[start:]]: walk back
    over ASCII white space; a byte [>= 0x80] at the stop position hands
    [s[start:stop]] to the Unicode-aware function. *)
Definition trimSpaceTail (s : string) : string :=
  let core := trimRight asciiSpace s in
  match lastByte core with
  | Some c => if isASCII c then core else unicodeTrimRightFunc core
  | None => core
  end.

(** [strings.TrimSpace]: the first loop walks forward over ASCII white
    space; a byte [>= 0x80] hands the rest to the Unicode-aware
    function. *)
Fixpoint TrimSpace (s : string) : string :=
  match s with
  | "" => ""
  | String c s' =>
      if negb (isASCII c) then unicodeTrimFunc s
      else if asciiSpace c then TrimSpace s'
      else trimSpaceTail s
  end.
End Unicode.

End GoStrings.

Import GoStrings.

(** ** Data model *)

Definition CR : ascii := "013"%char.
Definition LF : ascii := "010"%char.
Definition CRLF : string := String CR (String LF "").

(** [uint32] arithmetic: [Id] and [clientCounter] live in [0, 2^32). *)
Definition wrap32 (z : Z) : Z := z `mod` 2 ^ 32.

(** A Go [error] value. [io.EOF] is told apart by identity, every other
    error is known by its message. *)
Inductive error :=
| io_EOF
| errorString (msg : string).

Definition Error (e : error) : string :=
  match e with
  | io_EOF => "EOF"
  | errorString msg => msg
  end.

(** [Settings], from the driver interface file. Go's [int] fields are held
    as [Z]; no arithmetic is done on them. *)
Record Settings := {
  ListenHost : string;
  ListenPort : Z;
  PublicHost : string;
  MaxConnections : Z;
}.

(** What the code observes of a [net.Conn]: its peer address and whether
    [Close] was called on it. *)
Record NetConn := {
  remoteAddr : string;
  connOpen : bool;
}.

(** The [*bufio.Reader] of a session. The bytes it will deliver are an
    argument of [HandleCommands]; the field only records whether the
    pointer is nil. *)
Inductive bufioReader := NewReader.

(** The handlers that [init] stores in [commandsMap]. Their bodies are
    defined in other files of the package. *)
Inductive Handler :=
| handleUSER | handlePASS
| handleSIZE | handleMDTM | handleRETR | handleSTOR | handleAPPE
| handleDELE | handleRNFR | handleRNTO | handleALLO | handleREST
| handleCWD | handlePWD | handleCDUP | handleLIST | handleMKD | handleRMD
| handleTYPE | handlePASV | handleQUIT
| handleAUTH | handlePROT | handlePBSZ
| handleFEAT | handleSYST | handleNOOP | handleOPTS.

Global Instance Handler_eq_dec : EqDecision Handler.
Proof. solve_decision. Defined.

(** The global [commandsMap], built by [init] in the order of the source. *)
Definition commandsMap : gmap string Handler :=
  <["OPTS" := handleOPTS]> (
  <["NOOP" := handleNOOP]> (
  <["SYST" := handleSYST]> (
  <["FEAT" := handleFEAT]> (
  <["PBSZ" := handlePBSZ]> (
  <["PROT" := handlePROT]> (
  <["AUTH" := handleAUTH]> (
  <["QUIT" := handleQUIT]> (
  <["EPSV" := handlePASV]> (
  <["PASV" := handlePASV]> (
  <["TYPE" := handleTYPE]> (
  <["RMD" := handleRMD]> (
  <["MKD" := handleMKD]> (
  <["LIST" := handleLIST]> (
  <["NLST" := handleLIST]> (
  <["CDUP" := handleCDUP]> (
  <["PWD" := handlePWD]> (
  <["CWD" := handleCWD]> (
  <["REST" := handleREST]> (
  <["ALLO" := handleALLO]> (
  <["RNTO" := handleRNTO]> (
  <["RNFR" := handleRNFR]> (
  <["DELE" := handleDELE]> (
  <["APPE" := handleAPPE]> (
  <["STOR" := handleSTOR]> (
  <["RETR" := handleRETR]> (
  <["MDTM" := handleMDTM]> (
  <["SIZE" := handleSIZE]> (
  <["PASS" := handlePASS]> (
  <["USER" := handleUSER]> ∅))))))))))))))))))))))))))))).

(** Addresses of [clientHandler] values: [*clientHandler]. *)
Definition loc := nat.

(** Everything the code does that is visible outside the Go heap. *)
Inductive Event :=
| Debug (msg : string)                 (* text printed on [debugStream] *)
| ConnWrite (p : loc) (bytes : string) (* bytes flushed on [c.conn] *)
| ConnClose (p : loc)                  (* [c.conn.Close()] *)
| MutexLock                            (* [connectionsMutex.Lock()] *)
| MutexUnlock                          (* [connectionsMutex.Unlock()] *)
| MapStore (id : Z)                    (* [connectionsById[id] = c] *)
| MapDelete (id : Z)                   (* [delete(connectionsById, id)] *)
| MapRange                             (* [range connectionsById] *)
| DriverWelcomeUser (p : loc)          (* [driver.WelcomeUser(c)] *)
| DriverUserLeft (p : loc)             (* [driver.UserLeft(c)] *)
| ChannelOpen (p : loc)                (* [c.transfer.Open()] *)
| ChannelClose (p : loc)               (* [c.transfer.Close()] *)
| Dispatch (p : loc) (fn : Handler)    (* [fn(c)] *)
| Sleep (d : Z)                        (* [time.Sleep(d)], in ns *)
| ListenerAccept                       (* a successful [Listener.Accept()] *)
| ListenerClose                        (* [Listener.Close()] *)
| Go (p : loc).                        (* [go c.HandleCommands()] *)

Global Instance Event_eq_dec : EqDecision Event.
Proof. solve_decision. Defined.

Definition isDriverCall (e : Event) : bool :=
  match e with
  | DriverWelcomeUser _ | DriverUserLeft _ => true
  | _ => false
  end.

(** The return statement by which [HandleCommands] left. *)
Inductive Exit :=
| AdmissionRejected   (* [clientArrival] returned an error *)
| WelcomeRejected     (* [WelcomeUser] returned an error *)
| CleanDisconnect     (* [c.reader == nil] *)
| TCPDisconnect       (* [ReadString] returned [io.EOF] *)
| ReadError.          (* [ReadString] returned another error *)

(** [ClientContext]: what a driver can ask of the session it is handed. *)
Record ClientContext := {
  Path : string;
  User : string;
}.

(** The state of [net.Listener] once [ListenAndServe] has bound it. *)
Inductive ListenerState := Listening | ListenerClosed.

(** Modelled from the spec: the interface [transferHandler], declared
    outside the files at hand. A transfer channel has an [Open] that yields
    a byte stream or an error and a [Close]; both act on the channel's own
    state [T] only. *)
Class transferHandler (T : Type) := {
  Open : T → (NetConn + error) * T;
  Close : T → T;
}.

(** [ServerDriver], from the driver interface file, with [D] the driver's
    own state. [AuthUser] and [GetTLSConfig] are called by handlers only.
    A driver sees a session through [ClientContext]. *)
Class ServerDriver (D : Type) := {
  GetSettings : D → Settings;
  WelcomeUser : ClientContext → D → (string * option error) * D;
  UserLeft : ClientContext → D → D;
}.

Section Server.

(** [T]: transfer channels; [D]: the server driver; [CD]: the values of
    the interface [ClientHandlingDriver]. *)
Context {T D CD : Type} `{!transferHandler T} `{!ServerDriver D}.

(** The Unicode-aware branches of [strings.ToUpper] and
    [strings.TrimSpace], see [GoStrings]. *)
Variable unicodeToUpper : string → string.
Variable unicodeTrimFunc : string → string.
Variable unicodeTrimRightFunc : string → string.

(** [clientHandler]. The field [daddy] is left out: a [World] holds one
    server. [writer] is left out: what goes through it is a [ConnWrite]
    event. *)
Record clientHandler := {
  Id : Z;
  driver : option CD;
  conn : NetConn;
  reader : option bufioReader;
  user : string;
  isAuthed : bool;
  path : string;
  command : string;
  param : string;
  connectedAt : Z;
  ctx_rnfr : string;
  ctx_rest : Z;
  transfer : option T;
  transferTls : bool;
}.

(** [FtpServer], once [ListenAndServe] has loaded the settings and bound
    the listener. [connectionsMutex] and [debugStream] show in the trace;
    [driver] is the [drv] of the [World]. *)
Record FtpServer := {
  serverSettings : Settings;
  Listener : ListenerState;
  StartTime : Z;
  connectionsById : gmap Z loc;
  clientCounter : Z;
}.

(** The Go heap and its surroundings: the server, the allocated sessions
    ([*clientHandler] is an index into [sessions]), the driver, and the
    clock in ns. *)
Record World := {
  server : FtpServer;
  sessions : list clientHandler;
  drv : D;
  now : Z;
}.

(** An address outside [sessions] reads as this zero value and a write to
    it is lost; Go has no such address, and the statements that need the
    write to land ask for an allocated one. *)
Global Instance clientHandler_inhabited : Inhabited clientHandler :=
  populate {| Id := 0; driver := None; conn := {| remoteAddr := ""; connOpen := false |};
              reader := None; user := ""; isAuthed := false; path := "";
              command := ""; param := ""; connectedAt := 0; ctx_rnfr := "";
              ctx_rest := 0; transfer := None; transferTls := false |}.

(** *** Field updates *)

Definition set_reader (x : option bufioReader) (c : clientHandler) : clientHandler :=
  {| Id := Id c; driver := driver c; conn := conn c; reader := x; user := user c;
     isAuthed := isAuthed c; path := path c; command := command c; param := param c;
     connectedAt := connectedAt c; ctx_rnfr := ctx_rnfr c; ctx_rest := ctx_rest c;
     transfer := transfer c; transferTls := transferTls c |}.

Definition set_conn (x : NetConn) (c : clientHandler) : clientHandler :=
  {| Id := Id c; driver := driver c; conn := x; reader := reader c; user := user c;
     isAuthed := isAuthed c; path := path c; command := command c; param := param c;
     connectedAt := connectedAt c; ctx_rnfr := ctx_rnfr c; ctx_rest := ctx_rest c;
     transfer := transfer c; transferTls := transferTls c |}.

Definition set_isAuthed (x : bool) (c : clientHandler) : clientHandler :=
  {| Id := Id c; driver := driver c; conn := conn c; reader := reader c; user := user c;
     isAuthed := x; path := path c; command := command c; param := param c;
     connectedAt := connectedAt c; ctx_rnfr := ctx_rnfr c; ctx_rest := ctx_rest c;
     transfer := transfer c; transferTls := transferTls c |}.

Definition set_path (x : string) (c : clientHandler) : clientHandler :=
  {| Id := Id c; driver := driver c; conn := conn c; reader := reader c; user := user c;
     isAuthed := isAuthed c; path := x; command := command c; param := param c;
     connectedAt := connectedAt c; ctx_rnfr := ctx_rnfr c; ctx_rest := ctx_rest c;
     transfer := transfer c; transferTls := transferTls c |}.

Definition set_command (x : string) (c : clientHandler) : clientHandler :=
  {| Id := Id c; driver := driver c; conn := conn c; reader := reader c; user := user c;
     isAuthed := isAuthed c; path := path c; command := x; param := param c;
     connectedAt := connectedAt c; ctx_rnfr := ctx_rnfr c; ctx_rest := ctx_rest c;
     transfer := transfer c; transferTls := transferTls c |}.

Definition set_param (x : string) (c : clientHandler) : clientHandler :=
  {| Id := Id c; driver := driver c; conn := conn c; reader := reader c; user := user c;
     isAuthed := isAuthed c; path := path c; command := command c; param := x;
     connectedAt := connectedAt c; ctx_rnfr := ctx_rnfr c; ctx_rest := ctx_rest c;
     transfer := transfer c; transferTls := transferTls c |}.

Definition set_transfer (x : option T) (c : clientHandler) : clientHandler :=
  {| Id := Id c; driver := driver c; conn := conn c; reader := reader c; user := user c;
     isAuthed := isAuthed c; path := path c; command := command c; param := param c;
     connectedAt := connectedAt c; ctx_rnfr := ctx_rnfr c; ctx_rest := ctx_rest c;
     transfer := x; transferTls := transferTls c |}.

Definition set_serverSettings (x : Settings) (s : FtpServer) : FtpServer :=
  {| serverSettings := x; Listener := Listener s; StartTime := StartTime s;
     connectionsById := connectionsById s; clientCounter := clientCounter s |}.

Definition set_Listener (x : ListenerState) (s : FtpServer) : FtpServer :=
  {| serverSettings := serverSettings s; Listener := x; StartTime := StartTime s;
     connectionsById := connectionsById s; clientCounter := clientCounter s |}.

Definition set_connectionsById (x : gmap Z loc) (s : FtpServer) : FtpServer :=
  {| serverSettings := serverSettings s; Listener := Listener s; StartTime := StartTime s;
     connectionsById := x; clientCounter := clientCounter s |}.

Definition set_clientCounter (x : Z) (s : FtpServer) : FtpServer :=
  {| serverSettings := serverSettings s; Listener := Listener s; StartTime := StartTime s;
     connectionsById := connectionsById s; clientCounter := x |}.

Definition set_server (x : FtpServer) (w : World) : World :=
  {| server := x; sessions := sessions w; drv := drv w; now := now w |}.

Definition set_sessions (x : list clientHandler) (w : World) : World :=
  {| server := server w; sessions := x; drv := drv w; now := now w |}.

Definition set_drv (x : D) (w : World) : World :=
  {| server := server w; sessions := sessions w; drv := x; now := now w |}.

Definition set_now (x : Z) (w : World) : World :=
  {| server := server w; sessions := sessions w; drv := drv w; now := x |}.

(** *** The monad: a computation maps a world to a result, the next world
    and the events it caused, oldest first. *)

Definition M (A : Type) : Type := World → A * World * list Event.

Global Instance M_ret : MRet M := λ A a w, (a, w, []).

Global Instance M_bind : MBind M := λ A B f m w,
  let '(a, w1, t1) := m w in
  let '(b, w2, t2) := f a w1 in
  (b, w2, t1 ++ t2).

Definition emit (e : Event) : M unit := λ w, (tt, w, [e]).

Definition gets {A} (f : World → A) : M A := λ w, (f w, w, []).

(** Reading and updating the session at address [p]. *)
Definition getSession (p : loc) : M clientHandler :=
  λ w, (sessions w !!! p, w, []).

Definition modifySession (p : loc) (f : clientHandler → clientHandler) : M unit :=
  λ w, (tt, set_sessions (<[p := f (sessions w !!! p)]> (sessions w)) w, []).

Definition getServer : M FtpServer := λ w, (server w, w, []).

Definition modifyServer (f : FtpServer → FtpServer) : M unit :=
  λ w, (tt, set_server (f (server w)) w, []).

(** [defer d] ahead of [body]: [d] runs when [body] has returned. *)
Definition defer {A} (d : M unit) (body : M A) : M A :=
  r ← body; d;; mret r.

(** [fmt.Fprintf], [fmt.Fprintln] on [c.daddy.debugStream]. *)
Definition debug (msg : string) : M unit := emit (Debug msg).

(** [time.Now().UTC()]. *)
Definition timeNow : M Z := λ w, (now w, w, []).

(** ** [client_handler.go] *)

(** The command handlers, whose bodies are in other files: each one is
    an arbitrary computation on the session it is called with. *)
Variable handlers : Handler → loc → M unit.

Definition callHandler (fn : Handler) (p : loc) : M unit :=
  emit (Dispatch p fn);; handlers fn p.

(** [&clientHandler{...}]: a fresh address holding [c]. *)
Definition alloc (c : clientHandler) : M loc :=
  λ w, (length (sessions w), set_sessions (sessions w ++ [c]) w, []).

(** [NewClientHandler]: the counter is a [uint32]. *)
Definition NewClientHandler (connection : NetConn) : M loc :=
  modifyServer (λ s, set_clientCounter (wrap32 (clientCounter s + 1)) s);;
  s ← getServer;
  t ← timeNow;
  alloc {|
    Id := clientCounter s;
    driver := None;
    conn := connection;
    reader := Some NewReader;
    user := "";
    isAuthed := false;
    path := "/";
    command := "";
    param := "";
    connectedAt := t;
    ctx_rnfr := "";
    ctx_rest := 0;
    transfer := None;
    transferTls := false |}.

Definition disconnect (p : loc) : M unit :=
  emit (ConnClose p);;
  modifySession p (λ c, set_conn {| remoteAddr := remoteAddr (conn c); connOpen := false |} c).

(** [Path] and [User] make a [clientHandler] a [ClientContext]. *)
Definition clientContext (c : clientHandler) : ClientContext :=
  {| Path := path c; User := user c |}.

Definition SetPath (p : loc) (x : string) : M unit :=
  modifySession p (set_path x).

(** [end]: closes the channel, keeps the reference. *)
Definition end_ (p : loc) : M unit :=
  c ← getSession p;
  match transfer c with
  | Some t => emit (ChannelClose p);; modifySession p (set_transfer (Some (Close t)))
  | None => mret tt
  end.

Definition writeLine (p : loc) (line : string) : M unit :=
  debug ("FTP SEND: " +:+ line +:+ String LF "");;
  emit (ConnWrite p (line +:+ CRLF)).

(** [fmt.Sprintf("%d %s", code, message)]. *)
Definition writeMessage (p : loc) (code : Z) (message : string) : M unit :=
  writeLine p (pretty code +:+ " " +:+ message).

Definition TransferOpen (p : loc) : M (option NetConn * option error) :=
  c ← getSession p;
  match transfer c with
  | Some t =>
      writeMessage p 150 "Using transfer connection";;
      emit (ChannelOpen p);;
      let '(r, t') := Open t in
      modifySession p (set_transfer (Some t'));;
      match r with
      | inl data =>
          debug ("FTP Transfer connection opened to " +:+ remoteAddr data +:+ String LF "");;
          mret (Some data, None)
      | inr err => mret (None, Some err)
      end
  | None =>
      writeMessage p 550 "No passive connection declared";;
      mret (None, Some (errorString "No passive connection declared"))
  end.

Definition TransferClose (p : loc) : M unit :=
  c ← getSession p;
  match transfer c with
  | Some t =>
      writeMessage p 226 "Closing transfer connection";;
      emit (ChannelClose p);;
      modifySession p (set_transfer None);;
      debug ("FTP Transfer connection closed" +:+ String LF "")
  | None => mret tt
  end.

Definition IsTransferClosed (c : clientHandler) : bool :=
  match transfer c with
  | None => true
  | Some _ => false
  end.

Definition parseLine (line : string) : string * string :=
  let params := SplitN (Trim line CRLF) " " 2 in
  if decide (length params = 1%nat) then (params !!! 0%nat, "")
  else (params !!! 0%nat, TrimSpace unicodeTrimFunc unicodeTrimRightFunc (params !!! 1%nat)).

(** [bufio.Reader.ReadString(delim)] on a reader that will deliver the
    bytes [buf] and then fail with [rerr]: the bytes up to and including
    the first [delim], or what was left together with the error. The
    third component is what the reader still holds. *)
Fixpoint readDelim (delim : ascii) (buf : string) : option (string * string) :=
  match buf with
  | "" => None
  | String c buf' =>
      if Ascii.eqb c delim then Some (String c "", buf')
      else match readDelim delim buf' with
           | Some (line, rest) => Some (String c line, rest)
           | None => None
           end
  end.

Definition ReadString (delim : ascii) (buf : string) (rerr : error)
  : string * option error * string :=
  match readDelim delim buf with
  | Some (line, rest) => (line, None, rest)
  | None => (buf, Some rerr, "")
  end.

(** ** [server.go] *)

(** [loadSettings]. [GetSettings] returns a pointer and the defaults are
    written through it; the model keeps the outcome in the server. *)
Definition loadSettings : M unit := λ w,
  let s := GetSettings (drv w) in
  let s := if decide (ListenHost s = "")
           then {| ListenHost := "0.0.0.0"; ListenPort := ListenPort s;
                   PublicHost := PublicHost s; MaxConnections := MaxConnections s |}
           else s in
  let s := if decide (ListenPort s = 0)
           then {| ListenHost := ListenHost s; ListenPort := 2121;
                   PublicHost := PublicHost s; MaxConnections := MaxConnections s |}
           else s in
  let s := if decide (MaxConnections s = 0)
           then {| ListenHost := ListenHost s; ListenPort := ListenPort s;
                   PublicHost := PublicHost s; MaxConnections := 10000 |}
           else s in
  (tt, set_server (set_serverSettings s (server w)) w, []).

(** [clientArrival]. [len] of a map is an [int]. *)
Definition clientArrival (p : loc) : M (option error) :=
  emit MutexLock;;
  defer (emit MutexUnlock) (
    c ← getSession p;
    emit (MapStore (Id c));;
    modifyServer (λ s, set_connectionsById (<[Id c := p]> (connectionsById s)) s);;
    s ← getServer;
    let nb := Z.of_nat (size (connectionsById s)) in
    debug ("Client connected from " +:+ remoteAddr (conn c) +:+ String LF "");;
    if decide (nb > MaxConnections (serverSettings s))
    then mret (Some (errorString ("Too many clients " +:+ pretty nb +:+ " > "
                                    +:+ pretty (MaxConnections (serverSettings s)))))
    else mret None).

Definition clientDeparture (p : loc) : M unit :=
  emit MutexLock;;
  defer (emit MutexUnlock) (
    c ← getSession p;
    emit (MapDelete (Id c));;
    modifyServer (λ s, set_connectionsById (delete (Id c) (connectionsById s)) s);;
    debug ("Client from " +:+ remoteAddr (conn c) +:+ " disconnected" +:+ String LF "")).

(** The [range] loop of [Stop] with its [break], over the entries of the
    map in the order the iteration visits them. *)
Fixpoint rangeAllClosed (heap : list clientHandler) (entries : list (Z * loc)) : bool :=
  match entries with
  | [] => true
  | (_, p) :: rest =>
      if negb (IsTransferClosed (heap !!! p)) then false
      else rangeAllClosed heap rest
  end.

Definition rangeRegistry : M bool :=
  emit MapRange;;
  gets (λ w, rangeAllClosed (sessions w) (map_to_list (connectionsById (server w)))).

(** One round of the outer loop of [Stop], up to the test of
    [allClosed]. *)
Definition pollRegistry : M bool :=
  emit MutexLock;;
  allClosed ← rangeRegistry;
  emit MutexUnlock;;
  mret allClosed.

(** [time.Sleep(d)]: the clock advances and the other goroutines run;
    [others] is what they do to the world meanwhile. *)
Definition timeSleep (d : Z) (others : World → World) : M unit :=
  λ w, (tt, others (set_now (now w + d) w), [Sleep d]).

(** [Stop]. [others k] is what the rest of the program does during the
    [k]-th sleep. The result is [false] when [fuel] rounds were not
    enough to see all channels closed. *)
Fixpoint Stop (others : nat → World → World) (fuel k : nat) : M bool :=
  match fuel with
  | O => mret false
  | S fuel' =>
      allClosed ← pollRegistry;
      if allClosed : bool
      then (emit ListenerClose;; modifyServer (set_Listener ListenerClosed);; mret true)
      else (timeSleep 1000000000 (others k);; Stop others fuel' (S k))
  end.

(** The world that round [n] of [Stop] looks at, when round [0] looks at
    [w] and the sleeps are numbered from [k]. *)
Fixpoint worldAtPoll (others : nat → World → World) (k n : nat) (w : World) : World :=
  match n with
  | O => w
  | S n' => worldAtPoll others (S k) n' (others k (set_now (now w + 1000000000) w))
  end.

(** Every registered session reports its transfer channel closed. *)
Definition allTransfersClosed (w : World) : Prop :=
  ∀ id p, connectionsById (server w) !! id = Some p →
          IsTransferClosed (sessions w !!! p) = true.

(** The events of one round of [Stop] that does not find all channels
    closed, and of the round that does. *)
Definition pollAgain : list Event :=
  [MutexLock; MapRange; MutexUnlock; Sleep 1000000000].

Definition pollDone : list Event :=
  [MutexLock; MapRange; MutexUnlock; ListenerClose].

(** The accept loop of [ListenAndServe] on a bound listener. [arrivals]
    are the outcomes of the calls of [Accept] while the listener is open:
    a connection, or an error; on a closed listener [Accept] fails. The
    result is the error the loop returns, [None] when the loop waits in
    [Accept] for an arrival that is not in the list. The handlers are
    started, not run. *)
Fixpoint acceptLoop (arrivals : list (NetConn + error)) : M (option error) :=
  s ← getServer;
  match Listener s, arrivals with
  | Listening, inl connection :: rest =>
      emit ListenerAccept;;
      c ← NewClientHandler connection;
      emit (Go c);;
      acceptLoop rest
  | Listening, inr err :: _ =>
      debug ("Failed to accept connection: " +:+ Error err +:+ String LF "");;
      mret (Some err)
  | Listening, [] => mret None
  | ListenerClosed, _ =>
      let err := errorString "use of closed network connection" in
      debug ("Failed to accept connection: " +:+ Error err +:+ String LF "");;
      mret (Some err)
  end.

(** ** [HandleCommands] *)

Definition callDriver {A} (f : D → A * D) : M A :=
  λ w, let '(a, d) := f (drv w) in (a, set_drv d w, []).

Definition driverWelcomeUser (p : loc) : M (string * option error) :=
  c ← getSession p;
  emit (DriverWelcomeUser p);;
  callDriver (WelcomeUser (clientContext c)).

Definition driverUserLeft (p : loc) : M unit :=
  c ← getSession p;
  emit (DriverUserLeft p);;
  callDriver (λ d, (tt, UserLeft (clientContext c) d)).

(** The body of the [for] loop from the line that was read on: parse,
    store verb and argument, then either the [continue] of the login gate
    or the call through [commandsMap]. *)
Definition dispatchLine (line : string) (p : loc) : M unit :=
  debug ("FTP RECV: " +:+ line +:+ String LF "");;
  let '(command_, param_) := parseLine line in
  modifySession p (set_command (ToUpper unicodeToUpper command_));;
  modifySession p (set_param param_);;
  c ← getSession p;
  if bool_decide (command c ≠ "USER") && bool_decide (command c ≠ "PASS")
     && negb (isAuthed c)
  then writeMessage p 530 "Please login with USER and PASS"
  else
    match commandsMap !! command c with
    | None => writeMessage p 550 "Not handled"
    | Some fn => callHandler fn p
    end.

(** The [for] loop. [input] are the bytes the reader delivers before it
    fails with [rerr]. [None] stands for a loop that is still running when
    the fuel is spent. *)
Fixpoint commandLoop (fuel : nat) (input : string) (rerr : error) (p : loc)
  : M (option Exit) :=
  match fuel with
  | O => mret None
  | S fuel' =>
      c ← getSession p;
      match reader c with
      | None => debug ("Clean disconnect" +:+ String LF "");; mret (Some CleanDisconnect)
      | Some _ =>
          match ReadString LF input rerr with
          | (_, Some err, _) =>
              match err with
              | io_EOF =>
                  debug ("TCP disconnect" +:+ String LF "");; mret (Some TCPDisconnect)
              | _ =>
                  debug ("Read error: " +:+ Error err +:+ String LF "");; mret (Some ReadError)
              end
          | (line, None, rest) =>
              dispatchLine line p;;
              commandLoop fuel' rest rerr p
          end
      end
  end.

(** What [HandleCommands] runs between its third [defer] and the call
    deferred there: the welcome and the loop. *)
Definition welcomed (input : string) (rerr : error) (p : loc) : M (option Exit) :=
  '(msg, werr) ← driverWelcomeUser p;
  match werr with
  | None =>
      writeMessage p 220 msg;;
      commandLoop (S (String.length input)) input rerr p
  | Some _ =>
      writeMessage p 500 msg;;
      mret (Some WelcomeRejected)
  end.

(** [HandleCommands]: the three [defer]s run in reverse order on every
    return. Each round of the loop takes at least one byte from the
    reader, so [S (length input)] rounds are never used up. *)
Definition HandleCommands (input : string) (rerr : error) (p : loc) : M (option Exit) :=
  defer (clientDeparture p) (
  defer (end_ p) (
    err ← clientArrival p;
    match err with
    | Some e =>
        writeMessage p 500 ("Can't accept you - " +:+ Error e);;
        mret (Some AdmissionRejected)
    | None =>
        defer (driverUserLeft p) (
          '(msg, werr) ← driverWelcomeUser p;
          match werr with
          | None =>
              writeMessage p 220 msg;;
              commandLoop (S (String.length input)) input rerr p
          | Some _ =>
              writeMessage p 500 msg;;
              mret (Some WelcomeRejected)
          end)
    end)).

End Server.

(** ** A small server to run the model on *)

Module Demo.

(** A transfer channel whose state says whether [Open] succeeds. *)
Definition openChannel (ok : bool) : (NetConn + error) * bool :=
  (if ok then inl {| remoteAddr := "198.51.100.4:40000"; connOpen := true |}
   else inr (errorString "accept timeout"),
   ok).

Global Instance channel : transferHandler bool :=
  {| Open := openChannel; Close := λ ok, ok |}.

(** A driver whose state says whether it welcomes anyone. *)
Definition welcome (_ : ClientContext) (friendly : bool) : (string * option error) * bool :=
  (if friendly then ("Welcome", None)
   else ("Closed for the day", Some (errorString "closed")),
   friendly).

Global Instance serverDriver : ServerDriver bool :=
  {| GetSettings := λ _, {| ListenHost := ""; ListenPort := 0;
                            PublicHost := "203.0.113.7"; MaxConnections := 0 |};
     WelcomeUser := welcome;
     UserLeft := λ _ friendly, friendly |}.

Abbreviation clientHandler := (@clientHandler bool unit).
Abbreviation World := (@World bool bool unit).
Abbreviation M := (@M bool bool unit).

(** The inputs below are ASCII, so the Unicode branches of [strings] are
    not reached; the identity stands in for them. *)
Definition ascii_only (s : string) : string := s.

(** Handlers: [handleQUIT] ends the loop the one way a handler can, by
    setting [c.reader] to nil; the others do nothing. *)
Definition handlers (fn : Handler) (p : loc) : M unit :=
  match fn with
  | handleQUIT => modifySession p (set_reader None)
  | _ => mret tt
  end.

Definition parseLine := parseLine ascii_only ascii_only.
Definition commandLoop := commandLoop ascii_only ascii_only ascii_only handlers.
Definition HandleCommands := HandleCommands ascii_only ascii_only ascii_only handlers.

Definition peer (addr : string) : NetConn := {| remoteAddr := addr; connOpen := true |}.

(** The world that a computation leaves. *)
Definition after {A} (m : M A) (w : World) : World := (m w).1.2.

(** A server that listens, with no session yet. *)
Definition started (friendly : bool) (maxConnections counter : Z) : World :=
  {| server := {| serverSettings := {| ListenHost := "0.0.0.0"; ListenPort := 2121;
                                       PublicHost := "203.0.113.7";
                                       MaxConnections := maxConnections |};
                  Listener := Listening;
                  StartTime := 0;
                  connectionsById := ∅;
                  clientCounter := counter |};
     sessions := [];
     drv := friendly;
     now := 0 |}.

(** One accepted session, at address 0 with id 1, not yet arrived. *)
Definition accepted (friendly : bool) (maxConnections : Z) : World :=
  after (NewClientHandler (peer "192.0.2.1:50001")) (started friendly maxConnections 0).

(** The same, with the session logged in. *)
Definition loggedIn : World :=
  after (modifySession 0%nat (set_isAuthed true)) (accepted true 10).

(** A server at its limit of one connection: session 0 is registered,
    session 1 has been accepted and its handler is about to run. *)
Definition full : World :=
  after (NewClientHandler (peer "192.0.2.2:50002"))
    (after (clientArrival 0%nat) (accepted true 1)).

(** A server with one registered session that holds a transfer channel. *)
Definition transferring : World :=
  after (modifySession 0%nat (set_transfer (Some true)))
    (after (clientArrival 0%nat) (accepted true 10)).

(** While [Stop] sleeps for the first time, a client connects and the
    session at address 0 finishes its transfer. *)
Definition meanwhile (k : nat) (w : World) : World :=
  match k with
  | O => after (TransferClose 0%nat) (after (acceptLoop [inl (peer "192.0.2.3:50003")]) w)
  | S _ => w
  end.

(** A server whose counter has reached 2^32 - 1 while the session with
    id 1, accepted first, is still registered. *)
Definition longRunning : World :=
  after (modifyServer (set_clientCounter 4294967295))
    (after (clientArrival 0%nat) (accepted true 10)).

(** A line as [ReadString] returns it. *)
Definition received (text : string) : string := text +:+ CRLF.

End Demo.


(** ** Whole lines *)

(** [l] is one line as [ReadString] hands it over: it ends with LF and has
no LF before. *)
Definition wholeLine (l : string) : Prop := readDelim LF l = Some (l, "").

(** The bytes of a stream that delivers the lines [ls] one after the
other. *)
Fixpoint frame (ls : list string) : string :=
match ls with
| [] => ""
| l :: ls' => l +:+ frame ls'
end.

(** What the login gate answers to one line, as events of session [p]. *)
Definition gateReply (p : loc) (l : string) : list Event :=
[Debug ("FTP RECV: " +:+ l +:+ String LF "");
 Debug ("FTP SEND: 530 Please login with USER and PASS" +:+ String LF "");
 ConnWrite p ("530 Please login with USER and PASS" +:+ CRLF)].

(** The return of the loop on a read error [rerr], and what it prints. *)
Definition readFailure (rerr : error) : Exit * list Event :=
match rerr with
| io_EOF => (TCPDisconnect, [Debug ("TCP disconnect" +:+ String LF "")])
| _ => (ReadError, [Debug ("Read error: " +:+ Error rerr +:+ String LF "")])
end.



(** ** The words of the specification *)

Definition startsIn (f : ascii → bool) (s : string) : bool :=
  match s with
  | String c _ => f c
  | "" => false
  end.

Definition endsIn (f : ascii → bool) (s : string) : bool :=
  match lastByte s with
  | Some c => f c
  | None => false
  end.

(** [t] is [s] with the bytes of the set [f] taken off both ends, and off
    the ends only. *)
Definition strippedOf (f : ascii → bool) (s t : string) : Prop :=
  ∃ pre post, s = pre +:+ t +:+ post
    ∧ allBytes f pre = true ∧ allBytes f post = true
    ∧ startsIn f t = false ∧ endsIn f t = false.

(** [t] is [v], one byte [d], and [r], with no [d] in [v]. *)
Definition splitAtFirst (d : ascii) (t v r : string) : Prop :=
  t = v +:+ String d r ∧ allBytes (λ c, negb (Ascii.eqb c d)) v = true.

(** The parse as the specification words it: the line less its trailing
    terminator (CR LF, or a bare LF), cut at the first space, the rest
    trimmed. It differs from [parseLine] in the first step only. *)
Fixpoint withoutTerminator (line : string) : string :=
  match line with
  | "" => ""
  | String c rest =>
      if String.eqb line CRLF || String.eqb line (String LF "") then ""
      else String c (withoutTerminator rest)
  end.

Definition parseLineAsWorded (unicodeTrimFunc unicodeTrimRightFunc : string → string)
    (line : string) : string * string :=
  let params := SplitN (withoutTerminator line) " " 2 in
  if decide (length params = 1%nat) then (params !!! 0%nat, "")
  else (params !!! 0%nat, TrimSpace unicodeTrimFunc unicodeTrimRightFunc (params !!! 1%nat)).

(** ** Byte strings *)

Section StringFacts.

Implicit Types (s t : string) (c d : ascii) (f : ascii → bool).

Lemma app_cons c s t : String c s +:+ t = String c (s +:+ t).
Proof. reflexivity. Qed.

Lemma app_empty_r s : s +:+ "" = s.
Proof. induction s as [|c s IH]; [done|]. by rewrite app_cons, IH. Qed.

Lemma app_assoc' s t u : (s +:+ t) +:+ u = s +:+ t +:+ u.
Proof. induction s as [|c s IH]; [done|]. by rewrite !app_cons, IH. Qed.

Lemma allBytes_app f s t :
  allBytes f (s +:+ t) = allBytes f s && allBytes f t.
Proof.
  induction s as [|c s IH]; [done|].
  rewrite app_cons. simpl. by rewrite IH, andb_assoc.
Qed.

Lemma lastByte_cons c s : s ≠ "" → lastByte (String c s) = lastByte s.
Proof. by destruct s. Qed.

(** *** [trimLeft], [trimRight] and [Trim] *)

Lemma trimLeft_split f s :
  ∃ pre, s = pre +:+ trimLeft f s ∧ allBytes f pre = true.
Proof.
  induction s as [|c s [pre [Hs Hpre]]]; simpl.
  - by exists "".
  - destruct (f c) eqn:Hc.
    + exists (String c pre). rewrite app_cons, <- Hs. simpl. by rewrite Hc.
    + by exists "".
Qed.

Lemma trimLeft_starts f s : startsIn f (trimLeft f s) = false.
Proof.
  induction s as [|c s IH]; simpl; [done|].
  by destruct (f c) eqn:Hc; simpl.
Qed.

Lemma trimRight_split f s :
  ∃ post, s = trimRight f s +:+ post ∧ allBytes f post = true.
Proof.
  induction s as [|c s [post [Hs Hpost]]]; simpl.
  - by exists "".
  - destruct (trimRight f s) as [|c' r] eqn:Hr.
    + destruct (f c) eqn:Hc.
      * exists (String c post). split; [by rewrite Hs at 1|]. simpl. by rewrite Hc.
      * exists post. split; [by rewrite Hs at 1|done].
    + exists post. split; [by rewrite Hs at 1|done].
Qed.

Lemma trimRight_ends f s : endsIn f (trimRight f s) = false.
Proof.
  unfold endsIn. induction s as [|c s IH]; simpl; [done|].
  destruct (trimRight f s) as [|c' r] eqn:Hr.
  - destruct (f c) eqn:Hc; simpl; [done|by rewrite Hc].
  - by rewrite lastByte_cons.
Qed.

(** A non-empty suffix keeps the last byte. *)
Lemma lastByte_app s t : t ≠ "" → lastByte (s +:+ t) = lastByte t.
Proof.
  intros Ht. induction s as [|c s IH]; [done|].
  rewrite app_cons, lastByte_cons; [done|]. by destruct s, t.
Qed.

Lemma trimLeft_ends f s : endsIn f s = false → endsIn f (trimLeft f s) = false.
Proof.
  intros Hs. destruct (trimLeft_split f s) as [pre [Heq _]].
  destruct (trimLeft f s) as [|c r] eqn:Hr; [done|].
  unfold endsIn in *. rewrite Heq in Hs. by rewrite lastByte_app in Hs.
Qed.

Lemma Trim_stripped s cutset : strippedOf (inCutset cutset) s (Trim s cutset).
Proof.
  unfold Trim. set (f := inCutset cutset).
  destruct (trimRight_split f s) as [post [Hs Hpost]].
  destruct (trimLeft_split f (trimRight f s)) as [pre [Hr Hpre]].
  exists pre, post. split_and!; [|done|done|apply trimLeft_starts|].
  - rewrite <- app_assoc'. by rewrite <- Hr.
  - apply trimLeft_ends, trimRight_ends.
Qed.

Lemma trimRight_starts f s :
  startsIn f s = false → startsIn f (trimRight f s) = false.
Proof.
  destruct s as [|c s]; simpl; [done|]. intros Hc.
  destruct (trimRight f s); [|done]. by rewrite Hc.
Qed.

Lemma trimRight_trimLeft_stripped f s :
  strippedOf f s (trimRight f (trimLeft f s)).
Proof.
  destruct (trimLeft_split f s) as [pre [Hs Hpre]].
  destruct (trimRight_split f (trimLeft f s)) as [post [Hl Hpost]].
  exists pre, post. split_and!; [by rewrite <- Hl|done|done| |apply trimRight_ends].
  apply trimRight_starts, trimLeft_starts.
Qed.

Lemma lastByte_allBytes f s c :
  allBytes f s = true → lastByte s = Some c → f c = true.
Proof.
  induction s as [|c' s IH]; [done|]. simpl.
  intros [Hc Hs]%andb_prop. destruct s; [naive_solver|auto].
Qed.

(** *** [Index] and [SplitN] with a one-byte separator *)

Lemma HasPrefix_empty s : HasPrefix s "" = true.
Proof. by destruct s. Qed.

Lemma Index_byte_None d t :
  Index t (String d "") = None → allBytes (λ c, negb (Ascii.eqb c d)) t = true.
Proof.
  induction t as [|c t IH]; simpl; [done|].
  rewrite HasPrefix_empty, andb_true_r. destruct (Ascii.eqb c d); [done|]. simpl.
  destruct (Index t (String d "")); [done|auto].
Qed.

Lemma Index_byte_Some d t m :
  Index t (String d "") = Some m →
  splitAtFirst d t (sliceTo m t) (sliceFrom (m + 1) t).
Proof.
  revert m. induction t as [|c t IH]; simpl; [done|]. intros m.
  rewrite HasPrefix_empty, andb_true_r. destruct (Ascii.eqb c d) eqn:Hc.
  - intros [= <-]. apply Ascii.eqb_eq in Hc as ->. by split.
  - destruct (Index t (String d "")) as [k|]; [|done]. simpl. intros [= <-].
    destruct (IH k eq_refl) as [Ht Hv]. split; simpl.
    + rewrite app_cons. by rewrite <- Ht.
    + by rewrite Hc.
Qed.

Lemma SplitN_two t sep :
  SplitN t sep 2 =
    match Index t sep with
    | None => [t]
    | Some m => [sliceTo m t; sliceFrom (m + String.length sep) t]
    end.
Proof. simpl. by destruct (Index t sep). Qed.

(** *** [ToUpper] on ASCII *)

Lemma isLower_upperByte c : isLower (upperByte c) = false.
Proof. destruct c as [[] [] [] [] [] [] [] []]; by vm_compute. Qed.

Lemma upperByte_id c : isLower c = false → upperByte c = c.
Proof. unfold upperByte. by intros ->. Qed.

Lemma mapBytes_upperByte_noLower s :
  allBytes (λ c, negb (isLower c)) (mapBytes upperByte s) = true.
Proof.
  induction s as [|c s IH]; simpl; [done|].
  by rewrite isLower_upperByte, IH.
Qed.

Lemma mapBytes_upperByte_id s :
  allBytes (λ c, negb (isLower c)) s = true → mapBytes upperByte s = s.
Proof.
  induction s as [|c s IH]; simpl; [done|].
  intros [Hc Hs]%andb_prop. apply negb_true_iff in Hc.
  by rewrite upperByte_id, IH.
Qed.

Lemma mapBytes_length (g : ascii → ascii) s :
  String.length (mapBytes g s) = String.length s.
Proof. induction s; simpl; congruence. Qed.

End StringFacts.

(** ** Parsing a command line *)

Section ParseFacts.

Variables unicodeToUpper unicodeTrimFunc unicodeTrimRightFunc : string → string.

Local Abbreviation TrimSpace := (TrimSpace unicodeTrimFunc unicodeTrimRightFunc).
Local Abbreviation ToUpper := (ToUpper unicodeToUpper).
Local Abbreviation parseLine := (parseLine unicodeTrimFunc unicodeTrimRightFunc).

Implicit Types (s t line : string).

Lemma trimRight_ascii f s :
  allBytes isASCII s = true → allBytes isASCII (trimRight f s) = true.
Proof.
  destruct (trimRight_split f s) as [post [Hs _]].
  rewrite Hs at 1. rewrite allBytes_app. by intros [? _]%andb_prop.
Qed.

Lemma trimSpaceTail_ascii s :
  allBytes isASCII s = true →
  trimSpaceTail unicodeTrimRightFunc s = trimRight asciiSpace s.
Proof.
  intros Hs%(trimRight_ascii asciiSpace). unfold trimSpaceTail.
  destruct (lastByte (trimRight asciiSpace s)) as [c|] eqn:Hc; [|done].
  by rewrite (lastByte_allBytes _ _ _ Hs Hc).
Qed.

(** On ASCII input [TrimSpace] never reaches the Unicode branches. *)
Lemma TrimSpace_ascii s :
  allBytes isASCII s = true →
  TrimSpace s = trimRight asciiSpace (trimLeft asciiSpace s).
Proof.
  induction s as [|c s IH]; [done|].
  intros Hall. pose proof Hall as [Hc Hs]%andb_prop.
  cbn [GoStrings.TrimSpace trimLeft]. rewrite Hc. cbn [negb].
  destruct (asciiSpace c); [auto|].
  by apply trimSpaceTail_ascii.
Qed.

Lemma TrimSpace_stripped s :
  allBytes isASCII s = true → strippedOf asciiSpace s (TrimSpace s).
Proof.
  intros Hs. rewrite TrimSpace_ascii by done.
  apply trimRight_trimLeft_stripped.
Qed.

Lemma ToUpper_ascii s :
  allBytes isASCII s = true → ToUpper s = mapBytes upperByte s.
Proof. unfold GoStrings.ToUpper. by intros ->. Qed.

Lemma parseLine_cases line :
  parseLine line =
    let t := Trim line CRLF in
    match Index t " " with
    | None => (t, "")
    | Some m => (sliceTo m t, TrimSpace (sliceFrom (m + 1) t))
    end.
Proof.
  unfold parseLine. rewrite SplitN_two.
  by destruct (Index (Trim line CRLF) " ").
Qed.

End ParseFacts.

(** ** The session and the server *)

Section ServerFacts.

Context {T D CD : Type} `{!transferHandler T} `{!ServerDriver D}.
Variables unicodeToUpper unicodeTrimFunc unicodeTrimRightFunc : string → string.

Local Abbreviation clientHandler := (@clientHandler T CD).
Local Abbreviation World := (@World T D CD).
Local Abbreviation M := (@M T D CD).

Variable handlers : Handler → loc → M unit.

Local Abbreviation ToUpper := (ToUpper unicodeToUpper).
Local Abbreviation TrimSpace := (TrimSpace unicodeTrimFunc unicodeTrimRightFunc).
Local Abbreviation parseLine := (parseLine unicodeTrimFunc unicodeTrimRightFunc).
Local Abbreviation dispatchLine :=
  (dispatchLine unicodeToUpper unicodeTrimFunc unicodeTrimRightFunc handlers).
Local Abbreviation commandLoop :=
  (commandLoop unicodeToUpper unicodeTrimFunc unicodeTrimRightFunc handlers).
Local Abbreviation HandleCommands :=
  (HandleCommands unicodeToUpper unicodeTrimFunc unicodeTrimRightFunc handlers).
Local Abbreviation welcomed :=
  (welcomed unicodeToUpper unicodeTrimFunc unicodeTrimRightFunc handlers).

Implicit Types (w : World) (c : clientHandler) (p : loc) (tr : list Event).

(** *** Running computations *)

Lemma run_bind {A B} (m : M A) (f : A → M B) w :
  (m ≫= f) w =
    let '(a, w1, t1) := m w in
    let '(b, w2, t2) := f a w1 in
    (b, w2, t1 ++ t2).
Proof. reflexivity. Qed.

Lemma run_defer {A} (d : M unit) (body : M A) w :
  defer d body w =
    let '(r, w1, t1) := body w in
    let '(_, w2, t2) := d w1 in
    (r, w2, t1 ++ t2).
Proof.
  unfold defer. rewrite run_bind. destruct (body w) as [[r w1] t1].
  rewrite run_bind. destruct (d w1) as [[[] w2] t2]. cbn.
  by rewrite app_nil_r.
Qed.

Lemma commandLoop_S fuel input rerr p w :
  commandLoop (S fuel) input rerr p w =
    match reader (sessions w !!! p) with
    | None =>
        (Some CleanDisconnect, w, [Debug ("Clean disconnect" +:+ String LF "")])
    | Some _ =>
        match readDelim LF input with
        | None =>
            match rerr with
            | io_EOF => (Some TCPDisconnect, w, [Debug ("TCP disconnect" +:+ String LF "")])
            | _ => (Some ReadError, w,
                    [Debug ("Read error: " +:+ Error rerr +:+ String LF "")])
            end
        | Some (line, rest) =>
            let '(_, w1, t1) := dispatchLine line p w in
            let '(r, w2, t2) := commandLoop fuel rest rerr p w1 in
            (r, w2, t1 ++ t2)
        end
    end.
Proof.
  cbn [commandLoop]. rewrite run_bind. cbn [getSession].
  destruct (reader _); [|done]. unfold ReadString.
  destruct (readDelim LF input) as [[line rest]|]; [|by destruct rerr].
  rewrite run_bind. destruct (dispatchLine line p w) as [[[] w1] t1].
  by destruct (commandLoop fuel rest rerr p w1) as [[r w2] t2].
Qed.

(** The session at [p] after an update. *)
Lemma lookup_modified p (f : clientHandler → clientHandler) w :
  (p < length (sessions w))%nat →
  sessions (modifySession p f w).1.2 !!! p = f (sessions w !!! p).
Proof. intros Hp. cbn. by rewrite list_lookup_total_insert_eq. Qed.

(** The body of the loop, with the parse done: verb and argument are
    stored, and both the login gate and the look-up in [commandsMap] work
    on the upper-cased verb. *)
Lemma dispatchLine_run line p w :
  (p < length (sessions w))%nat →
  dispatchLine line p w =
    let verb := ToUpper (parseLine line).1 in
    let c := set_param (parseLine line).2 (set_command verb (sessions w !!! p)) in
    let '(_, w', tr) :=
      (if bool_decide (verb ≠ "USER") && bool_decide (verb ≠ "PASS") && negb (isAuthed c)
       then writeMessage p 530 "Please login with USER and PASS"
       else match commandsMap !! verb with
            | None => writeMessage p 550 "Not handled"
            | Some fn => callHandler handlers fn p
            end) (set_sessions (<[p := c]> (sessions w)) w) in
    (tt, w', Debug ("FTP RECV: " +:+ line +:+ String LF "") :: tr).
Proof.
  intros Hp. unfold dispatchLine.
  destruct (parseLine line) as [verb arg] eqn:Hparse. cbn [fst snd].
  rewrite run_bind. cbn [debug emit].
  rewrite run_bind. cbn [modifySession].
  rewrite run_bind. cbn [modifySession sessions set_sessions].
  rewrite run_bind. cbn [getSession sessions set_sessions].
  rewrite !list_lookup_total_insert_eq by (by rewrite ?length_insert).
  rewrite list_insert_insert_eq.
  cbn [command isAuthed set_param set_command].
  destruct (_ && _ && _).
  - done.
  - destruct (commandsMap !! ToUpper verb) as [fn|]; [|done].
    by destruct (callHandler handlers fn p _) as [[[] w'] tr].
Qed.

(** C4: [parseLine] takes the CR and LF bytes off the ends of the line
    and cuts what is left at its first space: the verb is what precedes
    it, the argument what follows it, with the white space at its two ends
    removed and nothing else (spaces inside stay); without a space the
    whole is the verb and the argument is empty. The loop upper-cases the
    verb before it stores it, and the login gate and [commandsMap] see the
    upper-cased verb only. (Bytes from 0x80 on are left to the Unicode
    branches of Go's [strings]; the two statements about ASCII say what
    is done below 0x80.) *)
Theorem parseLine_splits line :
  let t := Trim line CRLF in
  let verb := (parseLine line).1 in
  let arg := (parseLine line).2 in
  strippedOf (inCutset CRLF) line t
  ∧ match Index t " " with
    | None => allBytes (λ b, negb (Ascii.eqb b " ")) t = true ∧ verb = t ∧ arg = ""
    | Some _ =>
        ∃ rest, splitAtFirst " " t verb rest
          ∧ arg = TrimSpace rest
          ∧ (allBytes isASCII rest = true → strippedOf asciiSpace rest arg)
    end
  ∧ (allBytes isASCII verb = true →
     ToUpper verb = mapBytes upperByte verb
     ∧ allBytes (λ b, negb (isLower b)) (ToUpper verb) = true
     ∧ (allBytes (λ b, negb (isLower b)) verb = true → ToUpper verb = verb))
  ∧ (∀ p w, (p < length (sessions w))%nat →
     dispatchLine line p w =
       let c := set_param arg (set_command (ToUpper verb) (sessions w !!! p)) in
       let '(_, w', tr) :=
         (if bool_decide (ToUpper verb ≠ "USER") && bool_decide (ToUpper verb ≠ "PASS")
             && negb (isAuthed c)
          then writeMessage p 530 "Please login with USER and PASS"
          else match commandsMap !! ToUpper verb with
               | None => writeMessage p 550 "Not handled"
               | Some fn => callHandler handlers fn p
               end) (set_sessions (<[p := c]> (sessions w)) w) in
       (tt, w', Debug ("FTP RECV: " +:+ line +:+ String LF "") :: tr)).
Proof.
  intros t verb arg. split_and!.
  - apply Trim_stripped.
  - unfold verb, arg, t. rewrite parseLine_cases. cbv zeta.
    destruct (Index (Trim line CRLF) " ") as [m|] eqn:Hm; cbn [fst snd].
    + exists (sliceFrom (m + 1) (Trim line CRLF)). split_and!.
      * by apply Index_byte_Some.
      * done.
      * apply TrimSpace_stripped.
    + split; [by apply Index_byte_None|done].
  - intros Hascii. rewrite ToUpper_ascii by done. split_and!.
    + done.
    + apply mapBytes_upperByte_noLower.
    + apply mapBytes_upperByte_id.
  - intros p w Hp. by rewrite dispatchLine_run.
Qed.

(** What the login gate makes of a line. *)
Lemma dispatchLine_gate line p w :
  (p < length (sessions w))%nat →
  isAuthed (sessions w !!! p) = false →
  ToUpper (parseLine line).1 ≠ "USER" →
  ToUpper (parseLine line).1 ≠ "PASS" →
  dispatchLine line p w =
    (tt,
     set_sessions
       (<[p := set_param (parseLine line).2
                 (set_command (ToUpper (parseLine line).1) (sessions w !!! p))]>
          (sessions w)) w,
     [Debug ("FTP RECV: " +:+ line +:+ String LF "");
      Debug ("FTP SEND: 530 Please login with USER and PASS" +:+ String LF "");
      ConnWrite p ("530 Please login with USER and PASS" +:+ CRLF)]).
Proof.
  intros Hp Hauth Huser Hpass. unfold dispatchLine.
  destruct (parseLine line) as [verb arg] eqn:Hparse. cbn [fst snd] in *.
  cbv [mbind M_bind debug emit modifySession getSession writeMessage writeLine].
  cbn [sessions set_sessions].
  rewrite !list_lookup_total_insert_eq by (by rewrite ?length_insert).
  rewrite list_insert_insert_eq.
  cbn [command isAuthed set_param set_command]. rewrite Hauth.
  by rewrite !bool_decide_eq_true_2 by done.
Qed.

(** C1: on a session that is not authenticated, a received line whose
    upper-cased verb is neither USER nor PASS is answered with
    "530 Please login with USER and PASS", and the loop goes on to the
    next line; no handler is called, whatever the verb. *)
Theorem unauthenticated_command_rejected fuel input rerr p w line rest :
  (p < length (sessions w))%nat →
  reader (sessions w !!! p) ≠ None →
  isAuthed (sessions w !!! p) = false →
  readDelim LF input = Some (line, rest) →
  ToUpper (parseLine line).1 ≠ "USER" →
  ToUpper (parseLine line).1 ≠ "PASS" →
  commandLoop (S fuel) input rerr p w =
    let c := set_param (parseLine line).2
               (set_command (ToUpper (parseLine line).1) (sessions w !!! p)) in
    let '(r, w', tr) := commandLoop fuel rest rerr p (set_sessions (<[p := c]> (sessions w)) w) in
    (r, w',
     [Debug ("FTP RECV: " +:+ line +:+ String LF "");
      Debug ("FTP SEND: 530 Please login with USER and PASS" +:+ String LF "");
      ConnWrite p ("530 Please login with USER and PASS" +:+ CRLF)] ++ tr).
Proof.
  intros Hp Hreader Hauth Hread Huser Hpass.
  rewrite commandLoop_S, Hread.
  destruct (reader (sessions w !!! p)) as [rd|] eqn:Hrd; [|done].
  by rewrite dispatchLine_gate.
Qed.

(** *** The primitives, run *)

Lemma writeLine_run p line w :
  writeLine p line w =
    (tt, w, [Debug ("FTP SEND: " +:+ line +:+ String LF ""); ConnWrite p (line +:+ CRLF)]).
Proof. reflexivity. Qed.

Lemma writeMessage_run p code message w :
  writeMessage p code message w =
    (tt, w, [Debug ("FTP SEND: " +:+ (pretty code +:+ " " +:+ message) +:+ String LF "");
             ConnWrite p ((pretty code +:+ " " +:+ message) +:+ CRLF)]).
Proof. reflexivity. Qed.

(** An address that holds a channel is an allocated one. *)
Lemma transfer_allocated p w t :
  transfer (sessions w !!! p) = Some t → (p < length (sessions w))%nat.
Proof.
  intros Ht. destruct (decide (p < length (sessions w))%nat) as [|Hge]; [done|].
  rewrite list_lookup_total_alt, lookup_ge_None_2 in Ht by lia. done.
Qed.

Lemma end_run p w :
  end_ p w =
    match transfer (sessions w !!! p) with
    | Some t =>
        (tt, set_sessions (<[p := set_transfer (Some (Close t)) (sessions w !!! p)]> (sessions w)) w,
         [ChannelClose p])
    | None => (tt, w, [])
    end.
Proof. unfold end_. rewrite run_bind. cbn [getSession]. by destruct (transfer _). Qed.

Lemma clientArrival_run p w :
  let c := sessions w !!! p in
  let registry := <[Id c := p]> (connectionsById (server w)) in
  let nb := Z.of_nat (size registry) in
  let max := MaxConnections (serverSettings (server w)) in
  clientArrival p w =
    (if decide (nb > max)
     then Some (errorString ("Too many clients " +:+ pretty nb +:+ " > " +:+ pretty max))
     else None,
     set_server (set_connectionsById registry (server w)) w,
     [MutexLock; MapStore (Id c);
      Debug ("Client connected from " +:+ remoteAddr (conn c) +:+ String LF "");
      MutexUnlock]).
Proof.
  intros c registry nb max. unfold clientArrival.
  rewrite run_bind. cbn [emit]. rewrite run_defer, run_bind. cbn [getSession].
  cbv [mbind M_bind emit modifyServer getServer debug]. cbn.
  fold c. fold registry. fold nb. fold max. by destruct (decide (nb > max)).
Qed.

Lemma clientDeparture_run p w :
  let c := sessions w !!! p in
  clientDeparture p w =
    (tt,
     set_server (set_connectionsById (delete (Id c) (connectionsById (server w))) (server w)) w,
     [MutexLock; MapDelete (Id c);
      Debug ("Client from " +:+ remoteAddr (conn c) +:+ " disconnected" +:+ String LF "");
      MutexUnlock]).
Proof. reflexivity. Qed.

Lemma driverUserLeft_run p w :
  driverUserLeft p w =
    (tt, set_drv (UserLeft (clientContext (sessions w !!! p)) (drv w)) w, [DriverUserLeft p]).
Proof. reflexivity. Qed.

(** *** The transfer channel *)

Lemma TransferClose_run p w :
  TransferClose p w =
    match transfer (sessions w !!! p) with
    | Some _ =>
        (tt, set_sessions (<[p := set_transfer None (sessions w !!! p)]> (sessions w)) w,
         [Debug ("FTP SEND: 226 Closing transfer connection" +:+ String LF "");
          ConnWrite p ("226 Closing transfer connection" +:+ CRLF);
          ChannelClose p;
          Debug ("FTP Transfer connection closed" +:+ String LF "")])
    | None => (tt, w, [])
    end.
Proof.
  unfold TransferClose. rewrite run_bind. cbn [getSession].
  by destruct (transfer _).
Qed.

(** C5: [TransferClose] on a session without a channel writes nothing
    and changes nothing; on a session with a channel it writes one 226
    line, closes the channel and clears the reference. Either way
    [IsTransferClosed] holds afterwards, a second call in a row has no
    effect, and two calls in a row are one call. *)
Theorem TransferClose_idempotent p w :
  let '(_, w1, t1) := TransferClose p w in
  IsTransferClosed (sessions w1 !!! p) = true
  ∧ TransferClose p w1 = (tt, w1, [])
  ∧ (TransferClose p;; TransferClose p) w = TransferClose p w
  ∧ match transfer (sessions w !!! p) with
    | Some _ =>
        w1 = set_sessions (<[p := set_transfer None (sessions w !!! p)]> (sessions w)) w
        ∧ t1 = [Debug ("FTP SEND: 226 Closing transfer connection" +:+ String LF "");
                ConnWrite p ("226 Closing transfer connection" +:+ CRLF);
                ChannelClose p;
                Debug ("FTP Transfer connection closed" +:+ String LF "")]
    | None => w1 = w ∧ t1 = []
    end.
Proof.
  assert (∀ w0, transfer (sessions w0 !!! p) = None → TransferClose p w0 = (tt, w0, []))
    as Hnone by (intros w0 H0; by rewrite TransferClose_run, H0).
  rewrite run_bind.
  destruct (transfer (sessions w !!! p)) as [t|] eqn:Ht.
  - pose proof (transfer_allocated _ _ _ Ht) as Hp.
    rewrite TransferClose_run, Ht.
    set (w1 := set_sessions _ w).
    assert (transfer (sessions w1 !!! p) = None) as H1.
    { unfold w1. cbn [sessions set_sessions]. by rewrite list_lookup_total_insert_eq. }
    rewrite (Hnone w1 H1). unfold IsTransferClosed. rewrite H1.
    by split_and!.
  - rewrite (Hnone w Ht). rewrite (Hnone w Ht). unfold IsTransferClosed. by rewrite Ht.
Qed.

(** C6: without a channel [TransferOpen] writes a 550 line and returns
    the error "No passive connection declared" and no stream. With a
    channel it writes the 150 line, then opens the channel, and returns
    what [Open] returned: the stream, or the error; the session keeps its
    channel in both cases. *)
Theorem TransferOpen_spec p w :
  match transfer (sessions w !!! p) with
  | None =>
      TransferOpen p w =
        ((None, Some (errorString "No passive connection declared")), w,
         [Debug ("FTP SEND: 550 No passive connection declared" +:+ String LF "");
          ConnWrite p ("550 No passive connection declared" +:+ CRLF)])
  | Some t =>
      let w' := set_sessions (<[p := set_transfer (Some (Open t).2) (sessions w !!! p)]> (sessions w)) w in
      IsTransferClosed (sessions w' !!! p) = false
      ∧ match (Open t).1 with
        | inl data =>
            TransferOpen p w =
              ((Some data, None), w',
               [Debug ("FTP SEND: 150 Using transfer connection" +:+ String LF "");
                ConnWrite p ("150 Using transfer connection" +:+ CRLF);
                ChannelOpen p;
                Debug ("FTP Transfer connection opened to " +:+ remoteAddr data +:+ String LF "")])
        | inr err =>
            TransferOpen p w =
              ((None, Some err), w',
               [Debug ("FTP SEND: 150 Using transfer connection" +:+ String LF "");
                ConnWrite p ("150 Using transfer connection" +:+ CRLF);
                ChannelOpen p])
        end
  end.
Proof.
  unfold TransferOpen. rewrite run_bind. cbn [getSession].
  destruct (transfer (sessions w !!! p)) as [t|] eqn:Ht; [|done].
  pose proof (transfer_allocated _ _ _ Ht) as Hp.
  split.
  - cbn [sessions set_sessions]. by rewrite list_lookup_total_insert_eq.
  - destruct (Open t) as [[data|err] t']; done.
Qed.

(** *** Settings *)

(** C8: after [loadSettings] the listen host is "0.0.0.0" exactly when
    the driver gave the empty string, the listen port is 2121 exactly
    when the driver gave 0, the connection limit is 10000 exactly when the
    driver gave 0; any other value of the three fields is kept, and so is
    the public host. *)
Theorem loadSettings_defaults w :
  let s := GetSettings (drv w) in
  let '(_, w', tr) := loadSettings w in
  let s' := serverSettings (server w') in
  ListenHost s' = (if decide (ListenHost s = "") then "0.0.0.0" else ListenHost s)
  ∧ ListenPort s' = (if decide (ListenPort s = 0) then 2121 else ListenPort s)
  ∧ MaxConnections s' = (if decide (MaxConnections s = 0) then 10000 else MaxConnections s)
  ∧ PublicHost s' = PublicHost s
  ∧ w' = set_server (set_serverSettings s' (server w)) w
  ∧ tr = [].
Proof.
  unfold loadSettings. cbn.
  destruct (GetSettings (drv w)) as [host port public maxc]. cbn.
  destruct (decide (host = "")); cbn;
    destruct (decide (port = 0)); cbn;
    destruct (decide (maxc = 0)); by cbn.
Qed.

(** *** Session ids *)

Lemma wrap32_add_l a b : wrap32 (wrap32 a + b) = wrap32 (a + b).
Proof. unfold wrap32. by rewrite Zplus_mod_idemp_l. Qed.

Lemma wrap32_small a : 0 ≤ a < 2 ^ 32 → wrap32 a = a.
Proof. intros. unfold wrap32. by rewrite Z.mod_small. Qed.

Lemma wrap32_range a : 0 ≤ wrap32 a < 2 ^ 32.
Proof. unfold wrap32. apply Z.mod_pos_bound. lia. Qed.

Lemma wrap32_apart a b :
  0 < b - a < 2 ^ 32 → wrap32 a ≠ wrap32 b.
Proof.
  unfold wrap32. intros Hab Heq.
  assert ((b - a) `mod` 2 ^ 32 = 0) as H0.
  { rewrite Zminus_mod, Heq, Z.sub_diag. done. }
  rewrite Z.mod_small in H0; lia.
Qed.

Lemma NewClientHandler_run connection w :
  NewClientHandler connection w =
    (length (sessions w),
     set_sessions
       (sessions w ++ [{|
          Id := wrap32 (clientCounter (server w) + 1);
          driver := None;
          conn := connection;
          reader := Some NewReader;
          user := "";
          isAuthed := false;
          path := "/";
          command := "";
          param := "";
          connectedAt := now w;
          ctx_rnfr := "";
          ctx_rest := 0;
          transfer := None;
          transferTls := false |}])
       (set_server (set_clientCounter (wrap32 (clientCounter (server w) + 1)) (server w)) w),
     []).
Proof. reflexivity. Qed.

Lemma acceptLoop_cons connection arrivals w :
  Listener (server w) = Listening →
  acceptLoop (inl connection :: arrivals) w =
    let '(p, w1, _) := NewClientHandler connection w in
    let '(e, w2, tr) := acceptLoop arrivals w1 in
    (e, w2, ListenerAccept :: Go p :: tr).
Proof.
  intros HL. cbn [acceptLoop]. rewrite run_bind. cbn [getServer]. rewrite HL.
  rewrite NewClientHandler_run. rewrite run_bind. cbn [emit].
  rewrite run_bind, NewClientHandler_run. rewrite run_bind. cbn [emit].
  by destruct (acceptLoop arrivals _) as [[e w2] tr].
Qed.

(** The sessions made by the accept loop: the ones there before are
    kept, and the [k]-th new one has the counter's value [k + 1] steps
    on. *)
Lemma acceptLoop_sessions (incoming : list NetConn) w :
  Listener (server w) = Listening →
  let w' := (acceptLoop (inl <$> incoming) w).1.2 in
  length (sessions w') = (length (sessions w) + length incoming)%nat
  ∧ (∀ q, (q < length (sessions w))%nat → sessions w' !!! q = sessions w !!! q)
  ∧ (∀ k, (k < length incoming)%nat →
       Id (sessions w' !!! (length (sessions w) + k)%nat)
       = wrap32 (clientCounter (server w) + 1 + Z.of_nat k)).
Proof.
  revert w. induction incoming as [|connection incoming IH]; intros w HL.
  - cbn [fmap list_fmap acceptLoop]. rewrite run_bind. cbn [getServer]. rewrite HL. cbn.
    split_and!; [lia|done|intros; lia].
  - cbn [fmap list_fmap]. rewrite acceptLoop_cons by done. rewrite NewClientHandler_run.
    set (w1 := set_sessions _ _).
    specialize (IH w1 HL). cbv zeta in IH. destruct IH as (Hlen & Hold & Hnew).
    change (list_fmap _ _ inl incoming) with (inl (B:=error) <$> incoming).
    destruct (acceptLoop (inl <$> incoming) w1) as [[e w2] tr].
    cbn [fst snd] in *. unfold w1 in Hlen, Hold, Hnew.
    cbn [sessions set_sessions server set_server clientCounter set_clientCounter] in *.
    rewrite length_app in *. cbn [length] in *.
    split_and!.
    + lia.
    + intros q Hq. rewrite Hold by lia. by rewrite lookup_total_app_l.
    + intros [|k] Hk.
      * rewrite Nat.add_0_r, Hold by lia.
        rewrite lookup_total_app_r by lia. rewrite Nat.sub_diag. cbn. f_equal. lia.
      * replace (length (sessions w) + S k)%nat with (length (sessions w) + 1 + k)%nat by lia.
        rewrite Hnew by lia. rewrite <- Z.add_assoc, wrap32_add_l. f_equal. lia.
Qed.

(** C9, as the code has it: a new session's id is the counter plus one
    modulo 2^32, and the counter takes that value. Of the sessions made
    by one run of the accept loop, the [k]-th has the id
    [(counter + 1 + k) mod 2^32]; two of them that are less than 2^32
    acceptances apart have different ids; and as long as the counter does
    not pass 2^32 - 1 the ids grow strictly. *)
Theorem session_ids_modulo connection (incoming : list NetConn) w :
  (let '(p, w', _) := NewClientHandler connection w in
   Id (sessions w' !!! p) = wrap32 (clientCounter (server w) + 1)
   ∧ clientCounter (server w') = Id (sessions w' !!! p))
  ∧ (Listener (server w) = Listening →
     let w' := (acceptLoop (inl <$> incoming) w).1.2 in
     let id k := Id (sessions w' !!! (length (sessions w) + k)%nat) in
     (∀ k, (k < length incoming)%nat →
        id k = wrap32 (clientCounter (server w) + 1 + Z.of_nat k))
     ∧ (∀ i j, (i < j < length incoming)%nat → Z.of_nat (j - i) < 2 ^ 32 → id i ≠ id j)
     ∧ (0 ≤ clientCounter (server w) →
        clientCounter (server w) + Z.of_nat (length incoming) < 2 ^ 32 →
        ∀ i j, (i < j < length incoming)%nat → id i < id j)).
Proof.
  split.
  - rewrite NewClientHandler_run. cbn [sessions set_sessions server set_server
      clientCounter set_clientCounter].
    rewrite lookup_total_app_r by lia. rewrite Nat.sub_diag. done.
  - intros HL w' id.
    destruct (acceptLoop_sessions incoming w HL) as (_ & _ & Hid).
    fold w' in Hid. split_and!.
    + done.
    + intros i j Hij Hgap. unfold id. rewrite !Hid by lia.
      apply wrap32_apart. lia.
    + intros H0 Hmax i j Hij. unfold id. rewrite !Hid by lia.
      rewrite !wrap32_small by lia. lia.
Qed.

(** *** Shutdown *)

Lemma rangeAllClosed_Forall (heap : list clientHandler) entries :
  rangeAllClosed heap entries = true
  ↔ Forall (λ e, IsTransferClosed (heap !!! e.2) = true) entries.
Proof.
  induction entries as [|[id p] entries IH]; cbn [rangeAllClosed].
  - split; [constructor|done].
  - rewrite Forall_cons. cbn [snd].
    destruct (IsTransferClosed (heap !!! p)); cbn [negb].
    + rewrite IH. split; [by split|by intros [_ ?]].
    + split; [done|by intros [? _]].
Qed.

(** The [range] loop computes [allTransfersClosed], in whatever order it
    visits the map. *)
Lemma rangeRegistry_spec w :
  rangeAllClosed (sessions w) (map_to_list (connectionsById (server w))) = true
  ↔ allTransfersClosed w.
Proof.
  rewrite rangeAllClosed_Forall, Forall_forall. unfold allTransfersClosed. split.
  - intros H id p Hp. by apply (H (id, p)), elem_of_map_to_list.
  - intros H [id p] Hin%elem_of_map_to_list. by apply (H id p).
Qed.

Lemma Stop_S others fuel k w :
  Stop others (S fuel) k w =
    if rangeAllClosed (sessions w) (map_to_list (connectionsById (server w)))
    then (true, set_server (set_Listener ListenerClosed (server w)) w, pollDone)
    else
      let '(r, w', tr) :=
        Stop others fuel (S k) (others k (set_now (now w + 1000000000) w)) in
      (r, w', pollAgain ++ tr).
Proof.
  cbn [Stop]. rewrite run_bind.
  change (pollRegistry w) with
    (rangeAllClosed (sessions w) (map_to_list (connectionsById (server w))), w,
     [MutexLock; MapRange; MutexUnlock]).
  destruct (rangeAllClosed _ _); [done|].
  rewrite run_bind. cbn [timeSleep].
  by destruct (Stop others fuel (S k) _) as [[r w'] tr].
Qed.

(** When [Stop] returns, some round found all channels closed, no
    earlier round did, and nothing but sleeping was done in between. *)
Lemma Stop_returns others fuel k w :
  (Stop others fuel k w).1.1 = true →
  ∃ n, (n < fuel)%nat
    ∧ allTransfersClosed (worldAtPoll others k n w)
    ∧ (∀ m, (m < n)%nat → ¬ allTransfersClosed (worldAtPoll others k m w))
    ∧ (Stop others fuel k w).1.2 =
        set_server (set_Listener ListenerClosed (server (worldAtPoll others k n w)))
                   (worldAtPoll others k n w)
    ∧ (Stop others fuel k w).2 = concat (replicate n pollAgain) ++ pollDone.
Proof.
  revert k w. induction fuel as [|fuel IH]; intros k w; [done|].
  rewrite Stop_S.
  destruct (rangeAllClosed _ _) eqn:Hclosed.
  - intros _. exists 0%nat. apply rangeRegistry_spec in Hclosed.
    split_and!; [lia|done|intros; lia|done|done].
  - specialize (IH (S k) (others k (set_now (now w + 1000000000) w))).
    destruct (Stop others fuel (S k) _) as [[r w'] tr]. cbn [fst snd] in *.
    intros Hr. destruct (IH Hr) as (n & Hn & Hcl & Hfirst & Hw & Htr).
    exists (S n). cbn [worldAtPoll]. split_and!; [lia|done| |done|].
    + intros [|m] Hm; cbn [worldAtPoll].
      * rewrite <- rangeRegistry_spec. by rewrite Hclosed.
      * apply Hfirst. lia.
    + rewrite Htr. cbn [replicate concat]. by rewrite <- app_assoc.
Qed.

(** [Stop] returns as soon as a round finds all channels closed. *)
Lemma Stop_live others fuel k w n :
  (n < fuel)%nat →
  allTransfersClosed (worldAtPoll others k n w) →
  (Stop others fuel k w).1.1 = true.
Proof.
  revert k w n. induction fuel as [|fuel IH]; intros k w n Hn Hcl; [lia|].
  rewrite Stop_S.
  destruct (rangeAllClosed _ _) eqn:Hclosed; [done|].
  destruct n as [|n].
  - apply rangeRegistry_spec in Hcl. cbn [worldAtPoll] in Hcl. congruence.
  - cbn [worldAtPoll] in Hcl. specialize (IH _ _ n ltac:(lia) Hcl).
    by destruct (Stop others fuel (S k) _) as [[r w'] tr].
Qed.

(** C3, as the code has it: [Stop] does nothing to the listener while it
    drains. Round after round it takes the lock, ranges over the
    registry, releases the lock, and sleeps one second if some registered
    session has an open channel. It returns from the first round that
    finds [IsTransferClosed] on every registered session, having closed
    the listener in that round and not before; it does return when such a
    round comes; and on an empty registry the first round is that round,
    so that nothing is slept. *)
Theorem Stop_drains others fuel k w :
  let '(finished, w', tr) := Stop others fuel k w in
  (finished = true →
   ∃ n, (n < fuel)%nat
     ∧ allTransfersClosed (worldAtPoll others k n w)
     ∧ (∀ m, (m < n)%nat → ¬ allTransfersClosed (worldAtPoll others k m w))
     ∧ w' = set_server (set_Listener ListenerClosed (server (worldAtPoll others k n w)))
                       (worldAtPoll others k n w)
     ∧ tr = concat (replicate n pollAgain) ++ pollDone)
  ∧ (∀ n, (n < fuel)%nat → allTransfersClosed (worldAtPoll others k n w) →
          finished = true)
  ∧ (connectionsById (server w) = ∅ → fuel ≠ 0%nat →
     finished = true ∧ tr = pollDone
     ∧ w' = set_server (set_Listener ListenerClosed (server w)) w).
Proof.
  pose proof (Stop_returns others fuel k w) as Hret.
  pose proof (Stop_live others fuel k w) as Hlive.
  assert (connectionsById (server w) = ∅ → fuel ≠ 0%nat →
          Stop others fuel k w
          = (true, set_server (set_Listener ListenerClosed (server w)) w, pollDone))
    as Hempty.
  { intros Hreg Hfuel. destruct fuel as [|fuel']; [done|].
    by rewrite Stop_S, Hreg, map_to_list_empty. }
  destruct (Stop others fuel k w) as [[finished w'] tr]. cbn [fst snd] in *.
  split_and!; [done|done|].
  intros Hreg Hfuel. by injection (Hempty Hreg Hfuel) as -> -> ->.
Qed.

(** *** The command loop ends *)

Lemma readDelim_shorter d buf line rest :
  readDelim d buf = Some (line, rest) →
  (String.length rest < String.length buf)%nat.
Proof.
  revert line. induction buf as [|c buf IH]; intros line; cbn [readDelim]; [done|].
  destruct (Ascii.eqb c d).
  - intros [= _ <-]. cbn. lia.
  - destruct (readDelim d buf) as [[l r]|]; [|done].
    intros [= _ <-]. specialize (IH l eq_refl). cbn. lia.
Qed.

(** Every round takes at least one byte from the reader, so the fuel
    that [HandleCommands] gives is never spent. *)
Lemma commandLoop_ends fuel input rerr p w :
  (String.length input < fuel)%nat →
  (commandLoop fuel input rerr p w).1.1 ≠ None.
Proof.
  revert input w. induction fuel as [|fuel IH]; intros input w Hfuel; [lia|].
  rewrite commandLoop_S.
  destruct (reader (sessions w !!! p)); [|done].
  destruct (readDelim LF input) as [[line rest]|] eqn:Hread; [|by destruct rerr].
  apply readDelim_shorter in Hread.
  destruct (dispatchLine line p w) as [[[] w1] t1].
  specialize (IH rest w1 ltac:(lia)).
  by destruct (commandLoop fuel rest rerr p w1) as [[r w2] t2].
Qed.

(** The loop leaves by one of its three [return]s. *)
Lemma commandLoop_exit fuel input rerr p w :
  let r := (commandLoop fuel input rerr p w).1.1 in
  r = None ∨ r = Some CleanDisconnect ∨ r = Some TCPDisconnect ∨ r = Some ReadError.
Proof.
  revert input w. induction fuel as [|fuel IH]; intros input w; [by left|].
  cbv zeta. rewrite commandLoop_S.
  destruct (reader (sessions w !!! p)); [|auto].
  destruct (readDelim LF input) as [[line rest]|]; [|destruct rerr; auto].
  destruct (dispatchLine line p w) as [[[] w1] t1].
  specialize (IH rest w1).
  by destruct (commandLoop fuel rest rerr p w1) as [[r w2] t2].
Qed.

(** *** [HandleCommands], defer by defer *)

Lemma HandleCommands_run input rerr p w :
  HandleCommands input rerr p w =
    let '(err, w1, t1) := clientArrival p w in
    let '(r, w2, t2) :=
      match err with
      | Some e =>
          (Some AdmissionRejected, w1,
           [Debug ("FTP SEND: " +:+ (pretty 500 +:+ " " +:+ "Can't accept you - " +:+ Error e)
                     +:+ String LF "");
            ConnWrite p ((pretty 500 +:+ " " +:+ "Can't accept you - " +:+ Error e) +:+ CRLF)])
      | None =>
          let '(r, w2, t2) := welcomed input rerr p w1 in
          (r, set_drv (UserLeft (clientContext (sessions w2 !!! p)) (drv w2)) w2,
           t2 ++ [DriverUserLeft p])
      end in
    let '(_, w3, t3) := end_ p w2 in
    let '(_, w4, t4) := clientDeparture p w3 in
    (r, w4, t1 ++ t2 ++ t3 ++ t4).
Proof.
  unfold HandleCommands. rewrite !run_defer, run_bind.
  destruct (clientArrival p w) as [[[e|] w1] t1].
  - rewrite run_bind, writeMessage_run. cbn [mret M_ret].
    destruct (end_ p w1) as [[[] w3] t3].
    destruct (clientDeparture p w3) as [[[] w4] t4].
    by rewrite <- !app_assoc.
  - rewrite run_defer. fold (welcomed input rerr p).
    destruct (welcomed input rerr p w1) as [[r w2] t2].
    rewrite driverUserLeft_run.
    destruct (end_ p _) as [[[] w3] t3].
    destruct (clientDeparture p w3) as [[[] w4] t4].
    by rewrite <- !app_assoc.
Qed.

Lemma driverWelcomeUser_run p w :
  driverWelcomeUser p w =
    ((WelcomeUser (clientContext (sessions w !!! p)) (drv w)).1,
     set_drv (WelcomeUser (clientContext (sessions w !!! p)) (drv w)).2 w,
     [DriverWelcomeUser p]).
Proof.
  unfold driverWelcomeUser. rewrite run_bind. cbn [getSession].
  rewrite run_bind. cbn [emit]. unfold callDriver.
  by destruct (WelcomeUser _ _).
Qed.

Lemma welcomed_exit input rerr p w :
  let r := (welcomed input rerr p w).1.1 in
  r = Some WelcomeRejected ∨ r = Some CleanDisconnect
  ∨ r = Some TCPDisconnect ∨ r = Some ReadError.
Proof.
  unfold welcomed. rewrite run_bind, driverWelcomeUser_run.
  destruct (WelcomeUser _ _).1 as [msg [e|]].
  - rewrite run_bind, writeMessage_run. by left.
  - rewrite run_bind, writeMessage_run.
    pose proof (commandLoop_exit (S (String.length input)) input rerr p
                  (set_drv (WelcomeUser (clientContext (sessions w !!! p)) (drv w)).2 w))
      as Hexit.
    pose proof (commandLoop_ends (S (String.length input)) input rerr p
                  (set_drv (WelcomeUser (clientContext (sessions w !!! p)) (drv w)).2 w)
                  ltac:(lia)) as Hends.
    destruct (commandLoop _ input rerr p _) as [[r w2] t2]. cbn [fst] in *.
    cbv zeta in Hexit. tauto.
Qed.

Lemma welcomed_calls_driver input rerr p w :
  ∃ tr, (welcomed input rerr p w).2 = DriverWelcomeUser p :: tr.
Proof.
  unfold welcomed. rewrite run_bind, driverWelcomeUser_run.
  destruct (WelcomeUser _ _).1 as [msg [e|]]; rewrite run_bind, writeMessage_run.
  - by eexists.
  - destruct (commandLoop _ input rerr p _) as [[r w2] t2]. by eexists.
Qed.

Lemma end_keeps p w :
  Id (sessions (end_ p w).1.2 !!! p) = Id (sessions w !!! p)
  ∧ conn (sessions (end_ p w).1.2 !!! p) = conn (sessions w !!! p)
  ∧ server (end_ p w).1.2 = server w.
Proof.
  rewrite end_run. destruct (transfer (sessions w !!! p)) as [t|] eqn:Ht; [|done].
  pose proof (transfer_allocated _ _ _ Ht). cbn [fst snd sessions set_sessions].
  by rewrite list_lookup_total_insert_eq.
Qed.

(** C2, as the code has it: [clientArrival] takes the lock, stores the
    session in the registry, and releases the lock on return; it returns
    the error "Too many clients n > max" when the size [n] of the
    registry, the new entry counted, exceeds [MaxConnections], and nil
    otherwise, leaving the entry in place in both cases. On the error
    [HandleCommands] writes "500 Can't accept you - " followed by the
    message and returns; its deferred calls close a transfer channel if
    there is one and delete the entry. Nothing on that path closes the
    control connection. *)
Theorem admission_rejected p w :
  let c := sessions w !!! p in
  let registry := <[Id c := p]> (connectionsById (server w)) in
  let nb := Z.of_nat (size registry) in
  let max := MaxConnections (serverSettings (server w)) in
  let arrived :=
    [MutexLock; MapStore (Id c);
     Debug ("Client connected from " +:+ remoteAddr (conn c) +:+ String LF "");
     MutexUnlock] in
  let reply :=
    "500 Can't accept you - Too many clients " +:+ pretty nb +:+ " > " +:+ pretty max in
  clientArrival p w =
    (if decide (nb > max)
     then Some (errorString ("Too many clients " +:+ pretty nb +:+ " > " +:+ pretty max))
     else None,
     set_server (set_connectionsById registry (server w)) w,
     arrived)
  ∧ (nb > max → ∀ input rerr,
     let '(r, w', tr) := HandleCommands input rerr p w in
     r = Some AdmissionRejected
     ∧ tr = arrived
            ++ [Debug ("FTP SEND: " +:+ reply +:+ String LF ""); ConnWrite p (reply +:+ CRLF)]
            ++ match transfer c with Some _ => [ChannelClose p] | None => [] end
            ++ [MutexLock; MapDelete (Id c);
                Debug ("Client from " +:+ remoteAddr (conn c) +:+ " disconnected"
                         +:+ String LF "");
                MutexUnlock]
     ∧ conn (sessions w' !!! p) = conn c
     ∧ ConnClose p ∉ tr).
Proof.
  intros c registry nb max arrived reply.
  split; [apply clientArrival_run|].
  intros Hfull input rerr.
  rewrite HandleCommands_run, clientArrival_run.
  fold c registry nb max arrived. rewrite decide_True by done.
  set (w1 := set_server _ w).
  destruct (end_keeps p w1) as (HId & Hconn & Hsrv).
  assert ((end_ p w1).2 = match transfer c with Some _ => [ChannelClose p] | None => [] end)
    as Hend.
  { rewrite end_run. change (sessions w1 !!! p) with c. by destruct (transfer c). }
  destruct (end_ p w1) as [[[] w3] t3]. cbn [fst snd] in *.
  rewrite clientDeparture_run. rewrite HId, Hconn, Hend.
  change (sessions w1 !!! p) with c.
  split_and!; [done|done|done|].
  unfold arrived. destruct (transfer c);
    rewrite !not_elem_of_app, !not_elem_of_cons; split_and!; done || apply not_elem_of_nil.
Qed.

(** C7, as the code has it: [UserLeft] is deferred once the arrival is
    accepted. A session that is admitted calls [WelcomeUser] and, on its
    way out, [UserLeft], whichever way it leaves (the welcome refused, the
    reader set to nil by a handler, the end of the stream, a read error)
    and whether it authenticated or not; nothing of the driver is called
    afterwards. A session that is refused at arrival leaves without any
    call of the driver. *)
Theorem UserLeft_on_exit input rerr p w :
  let c := sessions w !!! p in
  let nb := Z.of_nat (size (<[Id c := p]> (connectionsById (server w)))) in
  let '(r, w', tr) := HandleCommands input rerr p w in
  if decide (nb > MaxConnections (serverSettings (server w)))
  then r = Some AdmissionRejected ∧ Forall (λ e, isDriverCall e = false) tr
  else (r = Some WelcomeRejected ∨ r = Some CleanDisconnect
        ∨ r = Some TCPDisconnect ∨ r = Some ReadError)
       ∧ ∃ before after,
           tr = before ++ DriverUserLeft p :: after
           ∧ DriverWelcomeUser p ∈ before
           ∧ Forall (λ e, isDriverCall e = false) after.
Proof.
  intros c nb.
  rewrite HandleCommands_run, clientArrival_run. fold c nb.
  destruct (decide (nb > _)) as [Hfull|Hroom].
  - set (w1 := set_server _ w).
    pose proof (end_run p w1) as Hend.
    destruct (end_ p w1) as [[[] w3] t3]. rewrite clientDeparture_run.
    split; [done|].
    assert (Forall (λ e, isDriverCall e = false) t3) as Ht3.
    { destruct (transfer (sessions w1 !!! p)); injection Hend as _ ->;
        repeat constructor. }
    rewrite !Forall_app. split_and!; [repeat constructor..|done|repeat constructor].
  - set (w1 := set_server _ w).
    pose proof (welcomed_exit input rerr p w1) as Hexit.
    destruct (welcomed_calls_driver input rerr p w1) as [rest Hcall].
    destruct (welcomed input rerr p w1) as [[r w2] t2]. cbn [fst snd] in *.
    set (w2' := set_drv _ w2).
    pose proof (end_run p w2') as Hend.
    destruct (end_ p w2') as [[[] w3] t3]. rewrite clientDeparture_run.
    split; [done|].
    assert (Forall (λ e, isDriverCall e = false) t3) as Ht3.
    { destruct (transfer (sessions w2' !!! p)); injection Hend as _ ->;
        repeat constructor. }
    match goal with
    | |- context [?t1 ++ (t2 ++ [DriverUserLeft p]) ++ t3 ++ ?t4] =>
        exists (t1 ++ t2), (t3 ++ t4)
    end.
    split_and!.
    + by rewrite <- !app_assoc.
    + rewrite Hcall. rewrite elem_of_app. right. apply elem_of_cons. by left.
    + rewrite Forall_app. split; [done|repeat constructor].
Qed.

(** C10: however [HandleCommands] returns, the registry has no entry
    under the session's id afterwards. The call that deletes it is
    deferred ahead of the arrival, so it is the last thing done, also for
    a session that [clientArrival] stored and then refused; for such a
    session the registry is back to what it was, less the id. The result
    is never [None]: the loop has ended. *)
Theorem HandleCommands_deregisters input rerr p w :
  let '(r, w', tr) := HandleCommands input rerr p w in
  r ≠ None
  ∧ connectionsById (server w') !! Id (sessions w' !!! p) = None
  ∧ (∃ between,
       tr = [MutexLock; MapStore (Id (sessions w !!! p));
             Debug ("Client connected from " +:+ remoteAddr (conn (sessions w !!! p))
                      +:+ String LF "");
             MutexUnlock]
            ++ between
            ++ [MutexLock; MapDelete (Id (sessions w' !!! p));
                Debug ("Client from " +:+ remoteAddr (conn (sessions w' !!! p))
                         +:+ " disconnected" +:+ String LF "");
                MutexUnlock])
  ∧ (r = Some AdmissionRejected →
     connectionsById (server w')
     = delete (Id (sessions w !!! p)) (connectionsById (server w))).
Proof.
  rewrite HandleCommands_run, clientArrival_run.
  set (w1 := set_server _ w).
  destruct (decide _) as [Hfull|Hroom].
  - destruct (end_keeps p w1) as (HId & Hconn & Hsrv).
    destruct (end_ p w1) as [[[] w3] t3]. cbn [fst snd] in *.
    rewrite clientDeparture_run.
    cbn [server set_server sessions connectionsById set_connectionsById].
    split_and!; [done|apply lookup_delete_eq| |].
    { match goal with
      | |- context [_ ++ ?reply ++ t3 ++ _] => exists (reply ++ t3)
      end.
      by rewrite <- !app_assoc. }
    intros _. rewrite Hsrv, HId. unfold w1.
    cbn [server set_server sessions connectionsById set_connectionsById].
    apply delete_insert_eq.
  - pose proof (welcomed_exit input rerr p w1) as Hexit.
    destruct (welcomed input rerr p w1) as [[r w2] t2]. cbn [fst snd] in *.
    destruct (end_ p _) as [[[] w3] t3].
    rewrite clientDeparture_run.
    cbn [server set_server sessions connectionsById set_connectionsById].
    split_and!.
    + intros ->. cbv zeta in Hexit. by destruct Hexit as [?|[?|[?|?]]].
    + apply lookup_delete_eq.
    + exists ((t2 ++ [DriverUserLeft p]) ++ t3). by rewrite <- !app_assoc.
    + intros ->. cbv zeta in Hexit. by destruct Hexit as [?|[?|[?|?]]].
Qed.

End ServerFacts.


(** ** More of the session and the server *)

Section MoreFacts.

Context {T D CD : Type} `{!transferHandler T} `{!ServerDriver D}.
Variables unicodeToUpper unicodeTrimFunc unicodeTrimRightFunc : string → string.

Local Abbreviation clientHandler := (@clientHandler T CD).
Local Abbreviation World := (@World T D CD).
Local Abbreviation M := (@M T D CD).

Variable handlers : Handler → loc → M unit.

Local Abbreviation ToUpper := (ToUpper unicodeToUpper).
Local Abbreviation TrimSpace := (TrimSpace unicodeTrimFunc unicodeTrimRightFunc).
Local Abbreviation parseLine := (parseLine unicodeTrimFunc unicodeTrimRightFunc).
Local Abbreviation dispatchLine :=
(dispatchLine unicodeToUpper unicodeTrimFunc unicodeTrimRightFunc handlers).
Local Abbreviation commandLoop :=
(commandLoop unicodeToUpper unicodeTrimFunc unicodeTrimRightFunc handlers).
Local Abbreviation HandleCommands :=
(HandleCommands unicodeToUpper unicodeTrimFunc unicodeTrimRightFunc handlers).
Local Abbreviation welcomed :=
(welcomed unicodeToUpper unicodeTrimFunc unicodeTrimRightFunc handlers).

Implicit Types (w : World) (c : clientHandler) (p : loc) (tr : list Event).

(** *** Lines off the stream *)

Lemma readDelim_whole l rest :
wholeLine l → readDelim LF (l +:+ rest) = Some (l, rest).
Proof.
unfold wholeLine. revert rest. induction l as [|b l IH]; intros rest; [done|].
rewrite app_cons. cbn [readDelim]. destruct (Ascii.eqb b LF).
- intros Hl. injection Hl as _ ->. done.
- destruct (readDelim LF l) as [[l' r']|] eqn:Hl; [|done].
  intros Hl'. injection Hl' as -> ->. by rewrite IH.
Qed.

Lemma readDelim_none buf :
allBytes (λ b, negb (Ascii.eqb b LF)) buf = true → readDelim LF buf = None.
Proof.
induction buf as [|b buf IH]; [done|]. cbn [allBytes readDelim].
intros [Hb Hbuf]%andb_prop. apply negb_true_iff in Hb. by rewrite Hb, IH.
Qed.

Lemma wholeLine_body body :
allBytes (λ b, negb (Ascii.eqb b LF)) body = true → wholeLine (body +:+ String LF "").
Proof.
unfold wholeLine. induction body as [|b body IH]; [done|].
cbn [allBytes]. intros [Hb Hbody]%andb_prop. apply negb_true_iff in Hb.
rewrite app_cons. cbn [readDelim]. by rewrite Hb, IH.
Qed.

(** X1: the loop cuts the stream at each LF. With a line [l] at the head
of the input, one round runs the body of the loop on [l], on no byte more
or less, and the next round starts on what follows. *)
Theorem commandLoop_takes_line fuel l rest rerr p w :
wholeLine l →
reader (sessions w !!! p) ≠ None →
commandLoop (S fuel) (l +:+ rest) rerr p w =
  let '(_, w1, t1) := dispatchLine l p w in
  let '(r, w2, t2) := commandLoop fuel rest rerr p w1 in
  (r, w2, t1 ++ t2).
Proof.
intros Hl Hreader. rewrite commandLoop_S, readDelim_whole by done.
by destruct (reader (sessions w !!! p)).
Qed.

(** X2: bytes that no LF follows are never run as a command. When the
reader fails before an LF has come, the loop returns at once, whatever it
has read: it calls no handler, writes nothing to the client, and leaves
the world as it is. *)
Theorem unterminated_input_dropped fuel input rerr p w :
allBytes (λ b, negb (Ascii.eqb b LF)) input = true →
reader (sessions w !!! p) ≠ None →
commandLoop (S fuel) input rerr p w =
  (Some (readFailure rerr).1, w, (readFailure rerr).2).
Proof.
intros Hinput Hreader. rewrite commandLoop_S, readDelim_none by done.
destruct (reader (sessions w !!! p)); [|done]. by destruct rerr.
Qed.

(** *** The login gate and the command table *)

(** X3: the login gate holds for a whole session. As long as no line is
a USER or a PASS, in any letter case, every line of a session that is not
logged in is answered with the 530 line and nothing else happens: no
handler is called, the session stays not logged in, the server and the
other sessions are untouched, until the reader fails. *)
Theorem gate_holds_for_whole_session lines tail fuel rerr p w :
(p < length (sessions w))%nat →
reader (sessions w !!! p) ≠ None →
isAuthed (sessions w !!! p) = false →
Forall (λ l, wholeLine l ∧ ToUpper (parseLine l).1 ≠ "USER"
             ∧ ToUpper (parseLine l).1 ≠ "PASS") lines →
allBytes (λ b, negb (Ascii.eqb b LF)) tail = true →
(length lines < fuel)%nat →
let '(r, w', tr) := commandLoop fuel (frame lines +:+ tail) rerr p w in
r = Some (readFailure rerr).1
∧ tr = concat (gateReply p <$> lines) ++ (readFailure rerr).2
∧ isAuthed (sessions w' !!! p) = false
∧ server w' = server w
∧ drv w' = drv w
∧ (∀ q, q ≠ p → sessions w' !!! q = sessions w !!! q).
Proof.
intros Hp Hreader Hauth Hlines Htail. revert fuel w Hp Hreader Hauth.
induction Hlines as [|l lines (Hl & Huser & Hpass) _ IH];
  intros fuel w Hp Hreader Hauth Hfuel.
- destruct fuel as [|fuel]; [cbn in Hfuel; lia|].
  cbn [frame]. change ("" +:+ tail) with tail.
  rewrite unterminated_input_dropped by done. by split_and!.
- destruct fuel as [|fuel]; [cbn in Hfuel; lia|].
  cbn [frame]. rewrite app_assoc'.
  rewrite commandLoop_takes_line by done.
  rewrite dispatchLine_gate by done.
  set (w1 := set_sessions _ w).
  assert (sessions w1 !!! p
          = set_param (parseLine l).2 (set_command (ToUpper (parseLine l).1) (sessions w !!! p)))
    as Hc1 by (unfold w1; cbn [sessions set_sessions]; by rewrite list_lookup_total_insert_eq).
  specialize (IH fuel w1).
  destruct (commandLoop fuel (frame lines +:+ tail) rerr p w1) as [[r w'] tr].
  destruct IH as (Hr & Htr & Hauth' & Hsrv & Hdrv & Hother).
  + unfold w1. cbn [sessions set_sessions]. by rewrite length_insert.
  + by rewrite Hc1.
  + by rewrite Hc1.
  + cbn [length] in Hfuel. lia.
  + split_and!; [done| |done|done|done|].
    * rewrite Htr. cbn [fmap list_fmap concat]. unfold gateReply at 2. done.
    * intros q Hq. rewrite Hother by done. unfold w1. cbn [sessions set_sessions].
      by rewrite list_lookup_total_insert_ne.
Qed.

(** X4: USER and PASS always reach their handlers. A line whose verb is
USER or PASS once upper-cased passes the login gate whether the session is
logged in or not: the verb and the argument are stored and the handler that
[init] registered for the verb is called. *)
Theorem login_verbs_reach_handlers line p w verb fn :
(p < length (sessions w))%nat →
ToUpper (parseLine line).1 = verb →
(verb = "USER" ∧ fn = handleUSER) ∨ (verb = "PASS" ∧ fn = handlePASS) →
dispatchLine line p w =
  let c := set_param (parseLine line).2 (set_command verb (sessions w !!! p)) in
  let '(_, w', tr) := handlers fn p (set_sessions (<[p := c]> (sessions w)) w) in
  (tt, w', Debug ("FTP RECV: " +:+ line +:+ String LF "") :: Dispatch p fn :: tr).
Proof.
intros Hp Hverb Hlogin. rewrite dispatchLine_run by done. rewrite Hverb. cbv zeta.
destruct Hlogin as [[-> ->]|[-> ->]].
- rewrite (bool_decide_eq_false_2 ("USER" ≠ "USER")) by (by intros ?).
  cbn [andb]. change (commandsMap !! "USER") with (Some handleUSER).
  unfold callHandler. rewrite run_bind. cbn [emit].
  by destruct (handlers handleUSER p _) as [[[] w'] tr].
- rewrite (bool_decide_eq_false_2 ("PASS" ≠ "PASS")) by (by intros ?).
  rewrite andb_false_r. cbn [andb]. change (commandsMap !! "PASS") with (Some handlePASS).
  unfold callHandler. rewrite run_bind. cbn [emit].
  by destruct (handlers handlePASS p _) as [[[] w'] tr].
Qed.

(** X5: a verb that [init] did not register, the empty verb of an empty
line among them, is answered with "550 Not handled" on a session that is
logged in: the verb and the argument are stored, and no handler is
called. *)
Theorem unknown_verb_not_handled line p w :
(p < length (sessions w))%nat →
isAuthed (sessions w !!! p) = true →
commandsMap !! ToUpper (parseLine line).1 = None →
dispatchLine line p w =
  (tt,
   set_sessions
     (<[p := set_param (parseLine line).2
               (set_command (ToUpper (parseLine line).1) (sessions w !!! p))]>
        (sessions w)) w,
   [Debug ("FTP RECV: " +:+ line +:+ String LF "");
    Debug ("FTP SEND: 550 Not handled" +:+ String LF "");
    ConnWrite p ("550 Not handled" +:+ CRLF)]).
Proof.
intros Hp Hauth Hnone. rewrite dispatchLine_run by done. cbv zeta.
cbn [isAuthed set_param set_command]. rewrite Hauth, Hnone.
by rewrite andb_false_r.
Qed.

Lemma commandsMap_keys_upper k fn :
commandsMap !! k = Some fn →
allBytes isASCII k = true ∧ mapBytes upperByte k = k.
Proof.
intros Hk%elem_of_map_to_list.
assert (forallb (λ e, allBytes isASCII e.1 && bool_decide (mapBytes upperByte e.1 = e.1))
          (map_to_list commandsMap) = true) as Hall by (by vm_compute).
rewrite forallb_forall in Hall. apply list_elem_of_In, Hall in Hk.
cbn [fst] in Hk. apply andb_prop in Hk as [? ?%bool_decide_eq_true]. done.
Qed.

(** X6: every verb of the table can be reached, in any letter case.
[init] registers upper-case ASCII verbs only, and the loop upper-cases what
it reads: an ASCII verb that differs from a registered one in letter case
at most finds the handler registered for that one. *)
Theorem verbs_reach_handlers_in_any_case k fn v :
commandsMap !! k = Some fn →
allBytes isASCII v = true →
mapBytes upperByte v = mapBytes upperByte k →
commandsMap !! ToUpper v = Some fn.
Proof.
intros Hk Hv Hcase. destruct (commandsMap_keys_upper k fn Hk) as [_ Hupper].
unfold GoStrings.ToUpper. by rewrite Hv, Hcase, Hupper.
Qed.

(** *** What is parsed and what is written *)

Lemma trimRight_all f t : allBytes f t = true → trimRight f t = "".
Proof.
induction t as [|b t IH]; [done|]. cbn [allBytes trimRight].
intros [Hb Ht]%andb_prop. by rewrite IH, Hb.
Qed.

Lemma trimRight_app_all f s t :
allBytes f t = true → trimRight f (s +:+ t) = trimRight f s.
Proof.
intros Ht. induction s as [|b s IH].
- change ("" +:+ t) with t. by rewrite trimRight_all.
- rewrite app_cons. cbn [trimRight]. by rewrite IH.
Qed.

Lemma trimLeft_app_all f h s :
allBytes f h = true → trimLeft f (h +:+ s) = trimLeft f s.
Proof.
induction h as [|b h IH]; [done|]. cbn [allBytes].
intros [Hb Hh]%andb_prop. rewrite app_cons. cbn [trimLeft]. by rewrite Hb, IH.
Qed.

Lemma trimRight_app_head f h s :
trimRight f (h +:+ s) =
  match trimRight f s with
  | "" => trimRight f h
  | r => h +:+ r
  end.
Proof.
induction h as [|b h IH].
- change ("" +:+ s) with s. by destruct (trimRight f s).
- rewrite app_cons. cbn [trimRight]. rewrite IH.
  destruct (trimRight f s) as [|b' r]; [done|].
  by destruct h.
Qed.

Lemma Trim_line_ends cutset head body tail :
allBytes (inCutset cutset) head = true →
allBytes (inCutset cutset) tail = true →
Trim (head +:+ body +:+ tail) cutset = Trim body cutset.
Proof.
intros Hhead Htail. unfold Trim.
rewrite <- app_assoc', trimRight_app_all by done.
rewrite trimRight_app_head.
destruct (trimRight (inCutset cutset) body) as [|b r].
- by rewrite trimRight_all.
- by rewrite trimLeft_app_all.
Qed.

(** X7: the CR and LF bytes at the two ends of a line make no difference
to what is parsed. A line that ends with CR LF, with a bare LF, or with
several CR before the LF, and a line with CR or LF bytes ahead of the verb,
give the verb and the argument of the line without them. *)
Theorem parseLine_ignores_line_ends head body tail :
allBytes (inCutset CRLF) head = true →
allBytes (inCutset CRLF) tail = true →
parseLine (head +:+ body +:+ tail) = parseLine body.
Proof.
intros Hhead Htail. unfold parseLine. by rewrite Trim_line_ends.
Qed.



(** *** The registry *)

(** X9: arrival and departure undo each other. After [clientArrival] and
[clientDeparture] of a session the registry is the one before, less the
session's id: the very same registry when the id was not in it. The
sessions themselves are not touched. *)
Theorem arrival_departure_round_trip p w :
let registry := connectionsById (server w) in
let id := Id (sessions w !!! p) in
let w' := ((clientArrival p;; clientDeparture p) w).1.2 in
connectionsById (server w') = delete id registry
∧ (registry !! id = None → w' = w)
∧ sessions w' = sessions w.
Proof.
intros registry id w'. unfold w'. rewrite run_bind, clientArrival_run.
rewrite clientDeparture_run.
cbn [fst snd server set_server sessions connectionsById set_connectionsById].
fold id registry. rewrite delete_insert_eq. split_and!; [done| |done].
intros Hfresh. rewrite delete_id by done. unfold registry.
by destruct w as [[] ? ? ?].
Qed.

(** X10: [clientDeparture] can be called again, and on a session that
never arrived: a second call leaves the world of the first, and a call for
an id that is not registered leaves the world as it is. The entries under
other ids stay in every case. *)
Theorem clientDeparture_idempotent p w :
let registry := connectionsById (server w) in
let id := Id (sessions w !!! p) in
let w1 := (clientDeparture p w).1.2 in
(clientDeparture p w1).1.2 = w1
∧ (registry !! id = None → w1 = w)
∧ (∀ other, other ≠ id → connectionsById (server w1) !! other = registry !! other).
Proof.
intros registry id w1. unfold w1. rewrite !clientDeparture_run.
cbn [fst snd server set_server sessions connectionsById set_connectionsById].
fold id registry. split_and!.
- by rewrite delete_delete_eq.
- intros Hfresh. rewrite delete_id by done. unfold registry.
  by destruct w as [[] ? ? ?].
- intros other Hother. by rewrite lookup_delete_ne.
Qed.

(** X11: where the limit lies. A session whose id is not registered is
admitted exactly when fewer than [MaxConnections] entries are in the
registry; one whose id is registered already takes no further place and is
admitted exactly when the registry holds no more than [MaxConnections].
Admitted or not, the session is then registered under its id, and the
entries under other ids are as before. *)
Theorem admission_threshold p w :
let registry := connectionsById (server w) in
let id := Id (sessions w !!! p) in
let max := MaxConnections (serverSettings (server w)) in
let '(err, w', _) := clientArrival p w in
(registry !! id = None → (err = None ↔ Z.of_nat (size registry) < max))
∧ (is_Some (registry !! id) → (err = None ↔ Z.of_nat (size registry) ≤ max))
∧ connectionsById (server w') !! id = Some p
∧ (∀ other, other ≠ id → connectionsById (server w') !! other = registry !! other).
Proof.
intros registry id max. rewrite clientArrival_run. fold id registry max.
cbn [server set_server connectionsById set_connectionsById].
split_and!.
- intros Hfresh. rewrite map_size_insert_None by done.
  destruct (decide _); split; intros; done || lia.
- intros Hthere. rewrite map_size_insert_Some by done.
  destruct (decide _); split; intros; done || lia.
- apply lookup_insert_eq.
- intros other Hother. by rewrite lookup_insert_ne.
Qed.

(** X12: the settings in force never hold a zero value. After
[loadSettings] the listen host is not empty and the port and the limit of
connections are not 0, whatever the driver gave; the registry, the counter
and the listener are as before. *)
Theorem loadSettings_never_zero w :
let w' := (loadSettings w).1.2 in
ListenHost (serverSettings (server w')) ≠ ""
∧ ListenPort (serverSettings (server w')) ≠ 0
∧ MaxConnections (serverSettings (server w')) ≠ 0
∧ connectionsById (server w') = connectionsById (server w)
∧ clientCounter (server w') = clientCounter (server w)
∧ Listener (server w') = Listener (server w)
∧ sessions w' = sessions w.
Proof.
unfold loadSettings. cbn.
destruct (GetSettings (drv w)) as [host port public maxc]. cbn.
destruct (decide (host = "")); cbn;
  destruct (decide (port = 0)); cbn;
  destruct (decide (maxc = 0)); by cbn.
Qed.

(** X13: a limit below one shuts everybody out. The arrival counts the
session it has just stored, so with [MaxConnections] at 0 or less every
arrival is refused; [loadSettings] replaces 0 by 10000 but keeps a negative
value, so that a driver that gives a negative limit gets a server that
refuses every session. *)
Theorem limit_below_one_refuses_all p w :
(MaxConnections (serverSettings (server w)) ≤ 0 → is_Some (clientArrival p w).1.1)
∧ (MaxConnections (GetSettings (drv w)) < 0 →
   is_Some (clientArrival p (loadSettings w).1.2).1.1).
Proof.
assert (∀ w0 : World, MaxConnections (serverSettings (server w0)) ≤ 0 →
                      is_Some (clientArrival p w0).1.1) as Hshut.
{ intros w0 Hmax. rewrite clientArrival_run. cbn [fst].
  pose proof (insert_non_empty (connectionsById (server w0)) (Id (sessions w0 !!! p)) p)
    as Hsize%map_size_non_empty_iff.
  destruct (decide _); [by eexists|lia]. }
split; [apply Hshut|].
intros Hneg. apply Hshut. unfold loadSettings. cbn.
destruct (GetSettings (drv w)) as [host port public maxc]. cbn in *.
destruct (decide (host = "")); cbn;
  destruct (decide (port = 0)); cbn;
  destruct (decide (maxc = 0)); cbn; lia.
Qed.

(** *** Shutdown and the accept loop *)

(** What [Stop] looks at: the sessions and the registry. *)
Lemma rangeAllClosed_same w1 w2 :
sessions w1 = sessions w2 →
connectionsById (server w1) = connectionsById (server w2) →
rangeAllClosed (sessions w1) (map_to_list (connectionsById (server w1)))
= rangeAllClosed (sessions w2) (map_to_list (connectionsById (server w2))).
Proof. by intros -> ->. Qed.

(** X14: [Stop] does not return while a registered session keeps its
channel. If the rest of the program leaves the sessions and the registry
alone, and some registered session holds a channel, then every round ends
in a sleep, however many rounds are run: the listener is not closed and
[Stop] has not come back. *)
Theorem Stop_waits_for_open_channel others fuel k w :
(∀ j w0, sessions (others j w0) = sessions w0
         ∧ connectionsById (server (others j w0)) = connectionsById (server w0)) →
¬ allTransfersClosed w →
let '(finished, w', tr) := Stop others fuel k w in
finished = false
∧ tr = concat (replicate fuel pollAgain)
∧ sessions w' = sessions w
∧ connectionsById (server w') = connectionsById (server w).
Proof.
intros Hothers. revert k w. induction fuel as [|fuel IH]; intros k w Hopen; [done|].
rewrite Stop_S.
destruct (rangeAllClosed _ _) eqn:Hclosed; [by apply rangeRegistry_spec in Hclosed|].
set (w1 := others k _).
destruct (Hothers k (set_now (now w + 1000000000) w)) as [Hs Hr]. fold w1 in Hs, Hr.
cbn [sessions set_now server connectionsById] in Hs, Hr.
specialize (IH (S k) w1).
destruct (Stop others fuel (S k) w1) as [[finished w'] tr].
destruct IH as (Hf & Htr & Hs' & Hr').
{ rewrite <- rangeRegistry_spec. rewrite (rangeAllClosed_same w1 w) by done.
  by rewrite Hclosed. }
split_and!; [done| |congruence|congruence].
rewrite Htr. done.
Qed.



(** *** The transfer channel, call after call *)

Lemma TransferOpen_none p w :
transfer (sessions w !!! p) = None →
TransferOpen p w =
  ((None, Some (errorString "No passive connection declared")), w,
   [Debug ("FTP SEND: 550 No passive connection declared" +:+ String LF "");
    ConnWrite p ("550 No passive connection declared" +:+ CRLF)]).
Proof. intros Hnone. unfold TransferOpen. rewrite run_bind. cbn [getSession]. by rewrite Hnone. Qed.

Lemma TransferClose_clears p w :
transfer (sessions (TransferClose p w).1.2 !!! p) = None.
Proof.
rewrite TransferClose_run.
destruct (transfer (sessions w !!! p)) as [t|] eqn:Ht; [|done].
pose proof (transfer_allocated _ _ _ Ht). cbn [fst snd sessions set_sessions].
by rewrite list_lookup_total_insert_eq.
Qed.

(** X17: a channel serves one transfer. After [TransferClose] the next
[TransferOpen] finds no channel: it writes the 550 line and returns the
error, until a command sets a new channel up. *)
Theorem TransferOpen_after_TransferClose p w :
(TransferClose p;; TransferOpen p) w =
  let '(_, w1, t1) := TransferClose p w in
  ((None, Some (errorString "No passive connection declared")), w1,
   t1 ++ [Debug ("FTP SEND: 550 No passive connection declared" +:+ String LF "");
          ConnWrite p ("550 No passive connection declared" +:+ CRLF)]).
Proof.
rewrite run_bind. pose proof (TransferClose_clears p w) as Hclear.
destruct (TransferClose p w) as [[[] w1] t1]. cbn [fst snd] in Hclear.
by rewrite TransferOpen_none.
Qed.

(** X18: [TransferClose] winds up a transfer whether the channel opened
or not. After [TransferOpen] on a session with a channel, [TransferClose]
writes the 226 line, closes the channel and clears it, also when [Open]
had returned an error; the client then has its 150 line and its 226
line, in this order. *)
Theorem TransferClose_after_TransferOpen p w t :
transfer (sessions w !!! p) = Some t →
let '(res, w', tr) := (res ← TransferOpen p; TransferClose p;; mret res) w in
res = match (Open t).1 with
      | inl data => (Some data, None)
      | inr err => (None, Some err)
      end
∧ IsTransferClosed (sessions w' !!! p) = true
∧ tr = [Debug ("FTP SEND: 150 Using transfer connection" +:+ String LF "");
        ConnWrite p ("150 Using transfer connection" +:+ CRLF);
        ChannelOpen p]
       ++ match (Open t).1 with
          | inl data =>
              [Debug ("FTP Transfer connection opened to " +:+ remoteAddr data
                        +:+ String LF "")]
          | inr _ => []
          end
       ++ [Debug ("FTP SEND: 226 Closing transfer connection" +:+ String LF "");
           ConnWrite p ("226 Closing transfer connection" +:+ CRLF);
           ChannelClose p;
           Debug ("FTP Transfer connection closed" +:+ String LF "")].
Proof.
intros Ht. pose proof (transfer_allocated _ _ _ Ht) as Hp.
rewrite run_bind.
assert (∃ res t1 ,
  TransferOpen p w =
    (res, set_sessions (<[p := set_transfer (Some (Open t).2) (sessions w !!! p)]> (sessions w)) w,
     t1)
  ∧ res = match (Open t).1 with
          | inl data => (Some data, None)
          | inr err => (None, Some err)
          end
  ∧ t1 = [Debug ("FTP SEND: 150 Using transfer connection" +:+ String LF "");
          ConnWrite p ("150 Using transfer connection" +:+ CRLF);
          ChannelOpen p]
         ++ match (Open t).1 with
            | inl data =>
                [Debug ("FTP Transfer connection opened to " +:+ remoteAddr data
                          +:+ String LF "")]
            | inr _ => []
            end) as (res & t1 & -> & Hres & Ht1).
{ unfold TransferOpen. rewrite run_bind. cbn [getSession]. rewrite Ht.
  destruct (Open t) as [[data|err] t']; by eexists _, _. }
set (w1 := set_sessions _ w).
assert (transfer (sessions w1 !!! p) = Some (Open t).2) as Ht'.
{ unfold w1. cbn [sessions set_sessions]. by rewrite list_lookup_total_insert_eq. }
rewrite run_bind. pose proof (TransferClose_clears p w1) as Hclear.
rewrite TransferClose_run, Ht' in *. cbn [fst snd mret M_ret] in *.
split_and!; [done| |].
- unfold IsTransferClosed. by rewrite Hclear.
- rewrite Ht1, app_nil_r. by rewrite <- app_assoc.
Qed.

(** X19: [TransferClose] is what [Stop] waits for. When no other
registered session holds a channel, [Stop] returns from its first round
after [TransferClose] of session [p]: it closes the listener and does not
sleep. *)
Theorem TransferClose_lets_Stop_return others fuel k p w :
(∀ id q, connectionsById (server w) !! id = Some q → q ≠ p →
         IsTransferClosed (sessions w !!! q) = true) →
Stop others (S fuel) k (TransferClose p w).1.2 =
  (true,
   set_server (set_Listener ListenerClosed (server (TransferClose p w).1.2))
              (TransferClose p w).1.2,
   pollDone).
Proof.
intros Hrest. rewrite Stop_S.
assert (allTransfersClosed (TransferClose p w).1.2) as Hclosed%rangeRegistry_spec.
{ intros id q Hq. destruct (decide (q = p)) as [->|Hne].
  - unfold IsTransferClosed. by rewrite TransferClose_clears.
  - rewrite TransferClose_run in *.
    destruct (transfer (sessions w !!! p)); cbn [fst snd] in *; [|by eapply Hrest].
    cbn [sessions set_sessions server] in *.
    rewrite list_lookup_total_insert_ne by done. by eapply Hrest. }
by rewrite Hclosed.
Qed.

(** *** The handler of a connection, from the arrival to the return *)

(** X20: no way out of [HandleCommands] leaves a channel open. If the
session holds a channel when [HandleCommands] returns, that channel has
been closed by the deferred [end], as the last thing before the session
was taken out of the registry. *)
Theorem exit_closes_channel input rerr p w :
let '(_, w', tr) := HandleCommands input rerr p w in
is_Some (transfer (sessions w' !!! p)) →
∃ before,
  tr = before
       ++ [ChannelClose p; MutexLock; MapDelete (Id (sessions w' !!! p));
           Debug ("Client from " +:+ remoteAddr (conn (sessions w' !!! p))
                    +:+ " disconnected" +:+ String LF "");
           MutexUnlock].
Proof.
rewrite HandleCommands_run.
destruct (clientArrival p w) as [[err w1] t1].
destruct (match err with Some _ => _ | None => _ end) as [[r w2] t2].
rewrite end_run.
destruct (transfer (sessions w2 !!! p)) as [t|] eqn:Ht.
- pose proof (transfer_allocated _ _ _ Ht) as Hp.
  rewrite clientDeparture_run.
  cbn [sessions set_sessions set_server]. intros _.
  exists (t1 ++ t2). by rewrite <- !app_assoc.
- rewrite clientDeparture_run. cbn [sessions set_sessions set_server].
  rewrite Ht. by intros [? ?].
Qed.

(** X21: a session that the driver does not welcome reads no command.
When the arrival is accepted and [WelcomeUser] returns an error, the
message that came with the error is written in a 500 line, [UserLeft] is
called, and [HandleCommands] returns: nothing is read from the client,
whatever it has sent, and no handler is called. *)
Theorem refused_welcome_reads_nothing input rerr p w msg e d' :
let c := sessions w !!! p in
let registry := <[Id c := p]> (connectionsById (server w)) in
¬ Z.of_nat (size registry) > MaxConnections (serverSettings (server w)) →
WelcomeUser (clientContext c) (drv w) = ((msg, Some e), d') →
let '(r, w', tr) := HandleCommands input rerr p w in
r = Some WelcomeRejected
∧ tr = [MutexLock; MapStore (Id c);
        Debug ("Client connected from " +:+ remoteAddr (conn c) +:+ String LF "");
        MutexUnlock;
        DriverWelcomeUser p;
        Debug ("FTP SEND: 500 " +:+ msg +:+ String LF "");
        ConnWrite p ("500 " +:+ msg +:+ CRLF);
        DriverUserLeft p]
       ++ match transfer c with Some _ => [ChannelClose p] | None => [] end
       ++ [MutexLock; MapDelete (Id c);
           Debug ("Client from " +:+ remoteAddr (conn c) +:+ " disconnected"
                    +:+ String LF "");
           MutexUnlock]
∧ drv w' = UserLeft (clientContext c) d'
∧ connectionsById (server w') = delete (Id c) (connectionsById (server w)).
Proof.
intros c registry Hroom Hwelcome.
rewrite HandleCommands_run, clientArrival_run. fold c registry.
rewrite decide_False by done.
set (w1 := set_server _ w). unfold welcomed.
rewrite run_bind, driverWelcomeUser_run.
change (sessions w1 !!! p) with c. change (drv w1) with (drv w).
rewrite Hwelcome. cbn [fst snd]. rewrite run_bind, writeMessage_run. cbn [mret M_ret].
set (w2 := set_drv (UserLeft _ _) _).
destruct (end_keeps p w2) as (HId & Hconn & Hsrv).
assert ((end_ p w2).2 = match transfer c with Some _ => [ChannelClose p] | None => [] end)
  as Hend.
{ rewrite end_run. change (sessions w2 !!! p) with c. by destruct (transfer c). }
assert (drv (end_ p w2).1.2 = UserLeft (clientContext c) d') as Hdrv.
{ rewrite end_run. change (sessions w2 !!! p) with c. by destruct (transfer c). }
destruct (end_ p w2) as [[[] w3] t3]. cbn [fst snd] in *.
rewrite clientDeparture_run. rewrite HId, Hconn, Hend.
change (sessions w2 !!! p) with c.
cbn [server set_server drv connectionsById set_connectionsById].
split_and!; [done|done|done|].
rewrite Hsrv. unfold w2, w1.
cbn [server set_server set_drv connectionsById set_connectionsById].
apply delete_insert_eq.
Qed.

(** X22: the greeting comes first. On a session that is admitted and
welcomed, the first bytes written to the client are the 220 line with the
driver's message, before anything is read; and the session then leaves by
one of the returns of the loop. *)
Theorem greeting_comes_first input rerr p w msg d' :
let c := sessions w !!! p in
let registry := <[Id c := p]> (connectionsById (server w)) in
¬ Z.of_nat (size registry) > MaxConnections (serverSettings (server w)) →
WelcomeUser (clientContext c) (drv w) = ((msg, None), d') →
let '(r, _, tr) := HandleCommands input rerr p w in
(r = Some CleanDisconnect ∨ r = Some TCPDisconnect ∨ r = Some ReadError)
∧ ∃ rest,
    tr = [MutexLock; MapStore (Id c);
          Debug ("Client connected from " +:+ remoteAddr (conn c) +:+ String LF "");
          MutexUnlock;
          DriverWelcomeUser p;
          Debug ("FTP SEND: 220 " +:+ msg +:+ String LF "");
          ConnWrite p ("220 " +:+ msg +:+ CRLF)]
         ++ rest.
Proof.
intros c registry Hroom Hwelcome.
rewrite HandleCommands_run, clientArrival_run. fold c registry.
rewrite decide_False by done.
set (w1 := set_server _ w). unfold welcomed.
rewrite run_bind, driverWelcomeUser_run.
change (sessions w1 !!! p) with c. change (drv w1) with (drv w).
rewrite Hwelcome. cbn [fst snd]. rewrite run_bind, writeMessage_run.
set (w2 := set_drv d' w1).
pose proof (commandLoop_exit unicodeToUpper unicodeTrimFunc unicodeTrimRightFunc handlers
              (S (String.length input)) input rerr p w2) as Hexit.
pose proof (commandLoop_ends unicodeToUpper unicodeTrimFunc unicodeTrimRightFunc handlers
              (S (String.length input)) input rerr p w2 ltac:(lia)) as Hends.
destruct (commandLoop _ input rerr p w2) as [[r w3] t3]. cbn [fst snd] in *.
destruct (end_ p _) as [[[] w4] t4].
destruct (clientDeparture p w4) as [[[] w5] t5].
split; [cbv zeta in Hexit; tauto|].
eexists. cbn [app]. rewrite <- !app_assoc. cbn [app]. reflexivity.
Qed.

(** X23: what follows a quit is not read. When the handler of a line
has set the reader to nil, the loop returns in its next round: the rest of
the stream, whole lines or not, is never parsed and never run. *)
Theorem nil_reader_ends_session fuel l rest rerr p w :
wholeLine l →
reader (sessions w !!! p) ≠ None →
reader (sessions (dispatchLine l p w).1.2 !!! p) = None →
commandLoop (S (S fuel)) (l +:+ rest) rerr p w =
  let '(_, w1, t1) := dispatchLine l p w in
  (Some CleanDisconnect, w1, t1 ++ [Debug ("Clean disconnect" +:+ String LF "")]).
Proof.
intros Hl Hreader Hnil. rewrite commandLoop_S, readDelim_whole by done.
destruct (reader (sessions w !!! p)); [|done].
destruct (dispatchLine l p w) as [[[] w1] t1]. cbn [fst snd] in Hnil.
by rewrite commandLoop_S, Hnil.
Qed.

End MoreFacts.

(** ** The theorems at work on the small server *)


(** C1 at work: the first session, not logged in, sends LIST and hangs
    up. *)
Lemma unauthenticated_command_rejected_witness :
  Demo.commandLoop 2 (Demo.received "LIST") io_EOF 0%nat (Demo.accepted true 10) =
    (Some TCPDisconnect,
     Demo.after (modifySession 0%nat (set_command "LIST")) (Demo.accepted true 10),
     [Debug ("FTP RECV: " +:+ Demo.received "LIST" +:+ String LF "");
      Debug ("FTP SEND: 530 Please login with USER and PASS" +:+ String LF "");
      ConnWrite 0%nat (Demo.received "530 Please login with USER and PASS");
      Debug ("TCP disconnect" +:+ String LF "")]).
Proof.
  unfold Demo.commandLoop.
  rewrite (unauthenticated_command_rejected Demo.ascii_only Demo.ascii_only Demo.ascii_only Demo.handlers
             1 (Demo.received "LIST") io_EOF 0%nat (Demo.accepted true 10) (Demo.received "LIST") "").
  - reflexivity.
  - vm_compute. lia.
  - discriminate.
  - reflexivity.
  - reflexivity.
  - vm_compute. discriminate.
  - vm_compute. discriminate.
Defined.

(** C2 at work: the server [full] refuses the session at address 1. *)
Lemma admission_rejected_witness :
  (Demo.HandleCommands "" io_EOF 1%nat Demo.full).1.1 = Some AdmissionRejected
  ∧ conn (sessions (Demo.HandleCommands "" io_EOF 1%nat Demo.full).1.2 !!! 1%nat)
    = Demo.peer "192.0.2.2:50002".
Proof.
  destruct (admission_rejected Demo.ascii_only Demo.ascii_only Demo.ascii_only Demo.handlers 1%nat Demo.full)
    as [_ Hrejected].
  specialize (Hrejected eq_refl "" io_EOF).
  unfold Demo.HandleCommands.
  destruct (HandleCommands Demo.ascii_only Demo.ascii_only Demo.ascii_only Demo.handlers "" io_EOF 1%nat Demo.full)
    as [[r w'] tr].
  destruct Hrejected as (Hr & _ & Hconn & _).
  split; [exact Hr|exact Hconn].
Defined.

(** C2 as stated fails: the refused session gets its 500 line, and its
    connection is as open afterwards as it was before; no [Close] is called
    on it. *)
Lemma rejected_connection_left_open :
  let '(r, w', tr) := Demo.HandleCommands "" io_EOF 1%nat Demo.full in
  r = Some AdmissionRejected
  ∧ bool_decide
      (ConnWrite 1%nat (Demo.received "500 Can't accept you - Too many clients 2 > 1") ∈ tr)
    = true
  ∧ connOpen (conn (sessions w' !!! 1%nat)) = true
  ∧ bool_decide (ConnClose 1%nat ∈ tr) = false.
Proof. vm_compute. done. Qed.

(** C3 at work: session 0 of [transferring] holds a channel at the first
    round and has closed it by the second. *)
Lemma Stop_drains_witness :
  (Stop Demo.meanwhile 2 0 Demo.transferring).1.1 = true
  ∧ (Stop Demo.meanwhile 2 0 Demo.transferring).2 = pollAgain ++ pollDone.
Proof.
  pose proof (Stop_drains Demo.meanwhile 2 0 Demo.transferring) as Hstop.
  destruct (Stop Demo.meanwhile 2 0 Demo.transferring) as [[finished w'] tr].
  destruct Hstop as (Hreturns & Hlive & _). cbn [fst snd].
  assert (finished = true) as Hfinished.
  { apply (Hlive 1%nat); [lia|]. by apply rangeRegistry_spec. }
  split; [exact Hfinished|].
  destruct (Hreturns Hfinished) as (n & Hn & Hclosed & _ & _ & ->).
  destruct n as [|[|n]]; [|reflexivity|lia].
  by apply rangeRegistry_spec in Hclosed.
Defined.

(** C3 as stated fails: [Stop] has made its first round and sleeps, the
    listener is still open, and the accept loop takes a connection: the
    server has one session more when [Stop] returns than when it began. *)
Lemma Stop_accepts_while_draining :
  let '(finished, w', tr) := Stop Demo.meanwhile 2 0 Demo.transferring in
  finished = true
  ∧ tr = pollAgain ++ pollDone
  ∧ Listener (server (worldAtPoll Demo.meanwhile 0 1 Demo.transferring)) = Listening
  ∧ length (sessions Demo.transferring) = 1%nat
  ∧ length (sessions w') = 2%nat
  ∧ clientCounter (server Demo.transferring) = 1
  ∧ clientCounter (server w') = 2.
Proof. vm_compute. done. Qed.

(** C4 at work, on a line with a lower-case verb and spaces around and
    inside the argument. *)
Lemma parseLine_splits_witness :
  Demo.parseLine (Demo.received "user  alice bob  ") = ("user", "alice bob")
  ∧ strippedOf (inCutset CRLF) (Demo.received "user  alice bob  ") "user  alice bob  "
  ∧ strippedOf asciiSpace " alice bob  " "alice bob"
  ∧ ToUpper Demo.ascii_only "user" = "USER".
Proof.
  destruct (parseLine_splits Demo.ascii_only Demo.ascii_only Demo.ascii_only Demo.handlers
              (Demo.received "user  alice bob  "))
    as (Hline & Hsplit & Hupper & _).
  change (Index (Trim (Demo.received "user  alice bob  ") CRLF) " ") with (Some 4%nat)
    in Hsplit.
  destruct Hsplit as (rest & [Hcut _] & _ & Htrim).
  vm_compute in Hcut. injection Hcut as <-.
  destruct (Hupper eq_refl) as (Hup & _).
  split_and!; [reflexivity|exact Hline|exact (Htrim eq_refl)|exact Hup].
Defined.

(** C4 as stated fails: a CR ahead of the verb goes the way of the
    terminator. With the terminator alone taken off, the verb of this line
    would be CR "user", which is not a verb of the login gate; the code makes
    it "user" and calls the handler of USER. *)
Lemma leading_CR_is_stripped :
  let line := String CR (Demo.received "user alice") in
  parseLineAsWorded Demo.ascii_only Demo.ascii_only line = (String CR "user", "alice")
  ∧ Demo.parseLine line = ("user", "alice")
  ∧ bool_decide
      (Dispatch 0%nat handleUSER
       ∈ (Demo.HandleCommands line io_EOF 0%nat (Demo.accepted true 10)).2) = true.
Proof. vm_compute. done. Qed.

(** C7 as stated fails: the session that the server [full] refuses leaves
    without a call of [UserLeft], or of anything else of the driver. *)
Lemma UserLeft_skipped_on_rejection :
  let '(r, _, tr) := Demo.HandleCommands "" io_EOF 1%nat Demo.full in
  r = Some AdmissionRejected
  ∧ bool_decide (DriverUserLeft 1%nat ∈ tr) = false
  ∧ forallb (λ e, negb (isDriverCall e)) tr = true.
Proof. vm_compute. done. Qed.

(** C9 at work: two connections accepted by a server that starts. *)
Lemma session_ids_modulo_witness :
  let w' := (acceptLoop (inl <$> [Demo.peer "192.0.2.1:50001"; Demo.peer "192.0.2.2:50002"])
                        (Demo.started true 10 0)).1.2 in
  Id (sessions w' !!! 0%nat) = 1
  ∧ Id (sessions w' !!! 1%nat) = 2
  ∧ Id (sessions w' !!! 0%nat) ≠ Id (sessions w' !!! 1%nat)
  ∧ Id (sessions w' !!! 0%nat) < Id (sessions w' !!! 1%nat).
Proof.
  destruct (session_ids_modulo (Demo.peer "192.0.2.1:50001")
              [Demo.peer "192.0.2.1:50001"; Demo.peer "192.0.2.2:50002"]
              (Demo.started true 10 0)) as [_ Hloop].
  destruct (Hloop eq_refl) as (Hid & Hapart & Hgrow).
  split_and!.
  - apply (Hid 0%nat). simpl. lia.
  - apply (Hid 1%nat). simpl. lia.
  - apply (Hapart 0%nat 1%nat); [simpl; lia|reflexivity].
  - apply (Hgrow ltac:(done) ltac:(done) 0%nat 1%nat). simpl. lia.
Defined.

(** C9 as stated fails: at 2^32 - 1 the counter starts again from 0. The
    next session gets the id 0, not the counter plus one, and the one after
    it gets the id 1, which the session accepted first still holds and is
    registered under. *)
Lemma session_id_reused :
  let '(_, w', _) :=
    acceptLoop [inl (Demo.peer "192.0.2.4:50004"); inl (Demo.peer "192.0.2.5:50005")]
               Demo.longRunning in
  clientCounter (server Demo.longRunning) = 4294967295
  ∧ Id (sessions w' !!! 1%nat) = 0
  ∧ Id (sessions w' !!! 2%nat) = 1
  ∧ Id (sessions w' !!! 0%nat) = 1
  ∧ connectionsById (server w') !! 1 = Some 0%nat
  ∧ clientCounter (server w') = 1.
Proof. vm_compute. done. Qed.

(** C10 at work: the session that [full] refuses was stored under its id 2
    and is gone from the registry when its handler has returned; the entry
    of the other session is still there. *)
Lemma HandleCommands_deregisters_witness :
  connectionsById (server (Demo.HandleCommands "" io_EOF 1%nat Demo.full).1.2)
  = delete 2 (connectionsById (server Demo.full))
  ∧ connectionsById (server (Demo.HandleCommands "" io_EOF 1%nat Demo.full).1.2) !! 2 = None
  ∧ connectionsById (server (Demo.HandleCommands "" io_EOF 1%nat Demo.full).1.2) !! 1
    = Some 0%nat.
Proof.
  pose proof (HandleCommands_deregisters Demo.ascii_only Demo.ascii_only Demo.ascii_only
                Demo.handlers "" io_EOF 1%nat Demo.full) as Hgone.
  unfold Demo.HandleCommands.
  destruct (HandleCommands Demo.ascii_only Demo.ascii_only Demo.ascii_only Demo.handlers
              "" io_EOF 1%nat Demo.full) as [[r w'] tr] eqn:Hrun.
  destruct Hgone as (_ & _ & _ & Hback). cbn [fst snd].
  assert (r = Some AdmissionRejected) as Hr by (by injection Hrun as <- _ _).
  rewrite (Hback Hr). by split_and!.
Defined.

(** The ways out of an admitted session, each with its [UserLeft]. *)

Example welcome_refused :
  let '(r, _, tr) := Demo.HandleCommands "" io_EOF 0%nat (Demo.accepted false 10) in
  r = Some WelcomeRejected
  ∧ tr = [MutexLock; MapStore 1;
          Debug ("Client connected from 192.0.2.1:50001" +:+ String LF "");
          MutexUnlock;
          DriverWelcomeUser 0%nat;
          Debug ("FTP SEND: 500 Closed for the day" +:+ String LF "");
          ConnWrite 0%nat (Demo.received "500 Closed for the day");
          DriverUserLeft 0%nat;
          MutexLock; MapDelete 1;
          Debug ("Client from 192.0.2.1:50001 disconnected" +:+ String LF "");
          MutexUnlock].
Proof. vm_compute. done. Qed.

Example quit_after_login :
  let '(r, w', tr) :=
    Demo.HandleCommands (Demo.received "quit" +:+ Demo.received "NOOP") io_EOF 0%nat
                        Demo.loggedIn in
  r = Some CleanDisconnect
  ∧ command (sessions w' !!! 0%nat) = "QUIT"
  ∧ bool_decide (Dispatch 0%nat handleQUIT ∈ tr) = true
  ∧ bool_decide (Dispatch 0%nat handleNOOP ∈ tr) = false
  ∧ bool_decide (DriverUserLeft 0%nat ∈ tr) = true
  ∧ connectionsById (server w') !! 1 = None.
Proof. vm_compute. done. Qed.

Example read_error :
  let '(r, _, tr) :=
    Demo.HandleCommands (Demo.received "noop" +:+ "NO")
                        (errorString "connection reset by peer") 0%nat Demo.loggedIn in
  r = Some ReadError
  ∧ bool_decide (Dispatch 0%nat handleNOOP ∈ tr) = true
  ∧ bool_decide (Debug ("Read error: connection reset by peer" +:+ String LF "") ∈ tr) = true
  ∧ bool_decide (DriverUserLeft 0%nat ∈ tr) = true.
Proof. vm_compute. done. Qed.

Example unknown_verb :
  let '(r, _, tr) := Demo.HandleCommands (Demo.received "XYZZY") io_EOF 0%nat Demo.loggedIn in
  r = Some TCPDisconnect
  ∧ bool_decide (ConnWrite 0%nat (Demo.received "550 Not handled") ∈ tr) = true.
Proof. vm_compute. done. Qed.


(** ** The further theorems at work on the small server *)

(** X1 at work: two commands in one packet. *)
Lemma commandLoop_takes_line_witness :
(Demo.commandLoop 3 (Demo.received "NOOP" +:+ Demo.received "SYST") io_EOF 0%nat
                  Demo.loggedIn).2
= [Debug ("FTP RECV: " +:+ Demo.received "NOOP" +:+ String LF ""); Dispatch 0%nat handleNOOP;
   Debug ("FTP RECV: " +:+ Demo.received "SYST" +:+ String LF ""); Dispatch 0%nat handleSYST;
   Debug ("TCP disconnect" +:+ String LF "")].
Proof.
unfold Demo.commandLoop.
rewrite (commandLoop_takes_line Demo.ascii_only Demo.ascii_only Demo.ascii_only Demo.handlers
           2 (Demo.received "NOOP") (Demo.received "SYST") io_EOF 0%nat Demo.loggedIn).
- reflexivity.
- reflexivity.
- discriminate.
Defined.

(** X2 at work: the client hangs up in the middle of a command. *)
Lemma unterminated_input_dropped_witness :
Demo.commandLoop 1 "QUI" io_EOF 0%nat Demo.loggedIn
= (Some TCPDisconnect, Demo.loggedIn, [Debug ("TCP disconnect" +:+ String LF "")]).
Proof.
unfold Demo.commandLoop.
rewrite (unterminated_input_dropped Demo.ascii_only Demo.ascii_only Demo.ascii_only
           Demo.handlers 0 "QUI" io_EOF 0%nat Demo.loggedIn).
- reflexivity.
- reflexivity.
- discriminate.
Defined.

(** X3 at work: LIST, then quit, then a broken line, all before login. *)
Lemma gate_holds_for_whole_session_witness :
(Demo.commandLoop 3 (frame [Demo.received "LIST"; Demo.received "quit"] +:+ "NO")
                  io_EOF 0%nat (Demo.accepted true 10)).1.1 = Some TCPDisconnect
∧ (Demo.commandLoop 3 (frame [Demo.received "LIST"; Demo.received "quit"] +:+ "NO")
                    io_EOF 0%nat (Demo.accepted true 10)).2
  = gateReply 0%nat (Demo.received "LIST") ++ gateReply 0%nat (Demo.received "quit")
    ++ [Debug ("TCP disconnect" +:+ String LF "")].
Proof.
assert (Forall (λ l, wholeLine l
                     ∧ ToUpper Demo.ascii_only (parseLine Demo.ascii_only Demo.ascii_only l).1
                       ≠ "USER"
                     ∧ ToUpper Demo.ascii_only (parseLine Demo.ascii_only Demo.ascii_only l).1
                       ≠ "PASS")
          [Demo.received "LIST"; Demo.received "quit"]) as Hlines.
{ repeat constructor; by vm_compute. }
pose proof (gate_holds_for_whole_session Demo.ascii_only Demo.ascii_only Demo.ascii_only
              Demo.handlers [Demo.received "LIST"; Demo.received "quit"] "NO" 3 io_EOF 0%nat
              (Demo.accepted true 10)
              ltac:(vm_compute; lia) ltac:(discriminate) eq_refl Hlines eq_refl
              ltac:(simpl; lia)) as Hgate.
unfold Demo.commandLoop.
destruct (commandLoop _ _ _ _ 3 _ io_EOF 0%nat (Demo.accepted true 10)) as [[r w'] tr].
destruct Hgate as (Hr & Htr & _). split; [exact Hr|].
rewrite Htr. cbn [fmap list_fmap concat readFailure snd]. by rewrite app_nil_r, <- app_assoc.
Defined.

(** X4 at work: a lower-case user before login. *)
Lemma login_verbs_reach_handlers_witness :
(dispatchLine Demo.ascii_only Demo.ascii_only Demo.ascii_only Demo.handlers
              (Demo.received "user alice") 0%nat (Demo.accepted true 10)).2
= [Debug ("FTP RECV: " +:+ Demo.received "user alice" +:+ String LF "");
   Dispatch 0%nat handleUSER].
Proof.
rewrite (login_verbs_reach_handlers Demo.ascii_only Demo.ascii_only Demo.ascii_only
           Demo.handlers (Demo.received "user alice") 0%nat (Demo.accepted true 10)
           "USER" handleUSER).
- reflexivity.
- vm_compute. lia.
- reflexivity.
- by left.
Defined.

(** X5 at work: an empty line after login. *)
Lemma unknown_verb_not_handled_witness :
(dispatchLine Demo.ascii_only Demo.ascii_only Demo.ascii_only Demo.handlers
              (Demo.received "") 0%nat Demo.loggedIn).2
= [Debug ("FTP RECV: " +:+ Demo.received "" +:+ String LF "");
   Debug ("FTP SEND: 550 Not handled" +:+ String LF "");
   ConnWrite 0%nat (Demo.received "550 Not handled")].
Proof.
rewrite (unknown_verb_not_handled Demo.ascii_only Demo.ascii_only Demo.ascii_only
           Demo.handlers (Demo.received "") 0%nat Demo.loggedIn).
- reflexivity.
- vm_compute. lia.
- reflexivity.
- reflexivity.
Defined.

(** X6 at work: NLST in mixed case. *)
Lemma verbs_reach_handlers_in_any_case_witness :
commandsMap !! ToUpper Demo.ascii_only "nlSt" = Some handleLIST.
Proof.
apply (verbs_reach_handlers_in_any_case Demo.ascii_only "NLST" handleLIST "nlSt");
  reflexivity.
Defined.

(** X7 at work: a CR ahead of the verb and two CR before the LF. *)
Lemma parseLine_ignores_line_ends_witness :
Demo.parseLine (String CR "" +:+ "RETR a b.txt" +:+ String CR CRLF)
= Demo.parseLine "RETR a b.txt".
Proof.
apply (parseLine_ignores_line_ends Demo.ascii_only Demo.ascii_only
         (String CR "") "RETR a b.txt" (String CR CRLF)); reflexivity.
Defined.


(** X9 at work: a session that arrives and departs at once. *)
Lemma arrival_departure_round_trip_witness :
((clientArrival 0%nat;; clientDeparture 0%nat) (Demo.accepted true 10)).1.2
= Demo.accepted true 10.
Proof.
destruct (arrival_departure_round_trip 0%nat (Demo.accepted true 10)) as (_ & Hback & _).
apply Hback. reflexivity.
Defined.

(** X10 at work: the departure of a session that never arrived. *)
Lemma clientDeparture_idempotent_witness :
(clientDeparture 0%nat (Demo.accepted true 10)).1.2 = Demo.accepted true 10.
Proof.
destruct (clientDeparture_idempotent 0%nat (Demo.accepted true 10)) as (_ & Hsame & _).
apply Hsame. reflexivity.
Defined.

(** X11 at work: the second session of a server with one place. *)
Lemma admission_threshold_witness :
(clientArrival 1%nat Demo.full).1.1 = None
↔ Z.of_nat (size (connectionsById (server Demo.full))) < 1.
Proof.
pose proof (admission_threshold 1%nat Demo.full) as Hlimit. cbv zeta in Hlimit.
destruct (clientArrival 1%nat Demo.full) as [[err w'] tr].
destruct Hlimit as (Hfresh & _). apply Hfresh. reflexivity.
Defined.

(** X13 at work: a limit of 0 in force. *)
Lemma limit_below_one_refuses_all_witness :
is_Some (clientArrival 0%nat (Demo.accepted true 0)).1.1.
Proof.
destruct (limit_below_one_refuses_all 0%nat (Demo.accepted true 0)) as [Hshut _].
apply Hshut. vm_compute. discriminate.
Defined.

(** X14 at work: nobody closes the channel of session 0 of
[transferring]. *)
Lemma Stop_waits_for_open_channel_witness :
(Stop (λ _ w, w) 3 0 Demo.transferring).1.1 = false
∧ (Stop (λ _ w, w) 3 0 Demo.transferring).2 = pollAgain ++ pollAgain ++ pollAgain.
Proof.
assert (¬ allTransfersClosed Demo.transferring) as Hopen.
{ intros Hclosed%rangeRegistry_spec. vm_compute in Hclosed. discriminate. }
pose proof (Stop_waits_for_open_channel (λ _ w, w) 3 0 Demo.transferring
              (λ _ _, conj eq_refl eq_refl) Hopen) as Hwait.
destruct (Stop (λ _ w, w) 3 0 Demo.transferring) as [[finished w'] tr].
destruct Hwait as (Hf & Htr & _). split; [exact Hf|exact Htr].
Defined.



(** X18 at work: a channel whose [Open] fails. *)
Lemma TransferClose_after_TransferOpen_witness :
let w := Demo.after (modifySession 0%nat (set_transfer (Some false))) Demo.loggedIn in
((res ← TransferOpen 0%nat; TransferClose 0%nat;; mret res) w).1.1
= (None, Some (errorString "accept timeout"))
∧ ((res ← TransferOpen 0%nat; TransferClose 0%nat;; mret res) w).2
  = [Debug ("FTP SEND: 150 Using transfer connection" +:+ String LF "");
     ConnWrite 0%nat (Demo.received "150 Using transfer connection");
     ChannelOpen 0%nat;
     Debug ("FTP SEND: 226 Closing transfer connection" +:+ String LF "");
     ConnWrite 0%nat (Demo.received "226 Closing transfer connection");
     ChannelClose 0%nat;
     Debug ("FTP Transfer connection closed" +:+ String LF "")].
Proof.
intros w.
pose proof (TransferClose_after_TransferOpen 0%nat w false eq_refl) as Hclose.
destruct ((res ← TransferOpen 0%nat; TransferClose 0%nat;; mret res) w) as [[res w'] tr].
destruct Hclose as (Hres & _ & Htr). split; [exact Hres|exact Htr].
Defined.

(** X19 at work: session 0 of [transferring] is the one session with a
channel. *)
Lemma TransferClose_lets_Stop_return_witness :
(Stop (λ _ w, w) 1 0 (TransferClose 0%nat Demo.transferring).1.2).1.1 = true
∧ (Stop (λ _ w, w) 1 0 (TransferClose 0%nat Demo.transferring).1.2).2 = pollDone.
Proof.
rewrite (TransferClose_lets_Stop_return (λ _ w, w) 0 0 0%nat Demo.transferring).
- by split.
- intros id q Hq Hne.
  change (connectionsById (server Demo.transferring))
    with (<[1 := 0%nat]> (∅ : gmap Z loc)) in Hq.
  apply lookup_insert_Some in Hq as [[_ <-]|[_ Hq]]; [done|].
  by rewrite lookup_empty in Hq.
Defined.

(** X20 at work: the client hangs up with a channel set up. *)
Lemma exit_closes_channel_witness :
∃ before,
  (Demo.HandleCommands "" io_EOF 0%nat
     (Demo.after (modifySession 0%nat (set_transfer (Some true))) (Demo.accepted true 10))).2
  = before
    ++ [ChannelClose 0%nat; MutexLock; MapDelete 1;
        Debug ("Client from 192.0.2.1:50001 disconnected" +:+ String LF "");
        MutexUnlock].
Proof.
pose proof (exit_closes_channel Demo.ascii_only Demo.ascii_only Demo.ascii_only Demo.handlers
              "" io_EOF 0%nat
              (Demo.after (modifySession 0%nat (set_transfer (Some true)))
                          (Demo.accepted true 10))) as Hexit.
unfold Demo.HandleCommands.
assert (is_Some (transfer (sessions
          (HandleCommands Demo.ascii_only Demo.ascii_only Demo.ascii_only Demo.handlers
             "" io_EOF 0%nat
             (Demo.after (modifySession 0%nat (set_transfer (Some true)))
                         (Demo.accepted true 10))).1.2 !!! 0%nat))) as Hheld
  by (by eexists).
destruct (HandleCommands _ _ _ _ "" io_EOF 0%nat _) as [[r w'] tr] eqn:Hrun.
cbn [fst snd] in *. destruct (Hexit Hheld) as [before ->].
vm_compute in Hrun. injection Hrun as _ <- _. by exists before.
Defined.

(** X21 at work: a driver that welcomes nobody, and a client that has
sent its USER line already. *)
Lemma refused_welcome_reads_nothing_witness :
(Demo.HandleCommands (Demo.received "USER alice") io_EOF 0%nat (Demo.accepted false 10)).1.1
= Some WelcomeRejected
∧ connectionsById
    (server (Demo.HandleCommands (Demo.received "USER alice") io_EOF 0%nat
                                 (Demo.accepted false 10)).1.2)
  = delete 1 ∅.
Proof.
pose proof (refused_welcome_reads_nothing Demo.ascii_only Demo.ascii_only Demo.ascii_only
              Demo.handlers (Demo.received "USER alice") io_EOF 0%nat (Demo.accepted false 10)
              "Closed for the day" (errorString "closed") false
              ltac:(vm_compute; discriminate) eq_refl) as Hrefused.
unfold Demo.HandleCommands.
destruct (HandleCommands _ _ _ _ _ io_EOF 0%nat (Demo.accepted false 10)) as [[r w'] tr].
destruct Hrefused as (Hr & _ & _ & Hregistry). split; [exact Hr|exact Hregistry].
Defined.

(** X22 at work: a welcomed client that says nothing. *)
Lemma greeting_comes_first_witness :
∃ rest,
  (Demo.HandleCommands "" io_EOF 0%nat (Demo.accepted true 10)).2
  = [MutexLock; MapStore 1;
     Debug ("Client connected from 192.0.2.1:50001" +:+ String LF "");
     MutexUnlock;
     DriverWelcomeUser 0%nat;
     Debug ("FTP SEND: 220 Welcome" +:+ String LF "");
     ConnWrite 0%nat (Demo.received "220 Welcome")]
    ++ rest.
Proof.
pose proof (greeting_comes_first Demo.ascii_only Demo.ascii_only Demo.ascii_only
              Demo.handlers "" io_EOF 0%nat (Demo.accepted true 10) "Welcome" true
              ltac:(vm_compute; discriminate) eq_refl) as Hgreeting.
unfold Demo.HandleCommands.
destruct (HandleCommands _ _ _ _ "" io_EOF 0%nat (Demo.accepted true 10)) as [[r w'] tr].
destruct Hgreeting as (_ & rest & ->). by exists rest.
Defined.

(** X23 at work: quit and NOOP in one packet. *)
Lemma nil_reader_ends_session_witness :
(Demo.commandLoop 2 (Demo.received "quit" +:+ Demo.received "NOOP") io_EOF 0%nat
                  Demo.loggedIn).1.1 = Some CleanDisconnect
∧ (Demo.commandLoop 2 (Demo.received "quit" +:+ Demo.received "NOOP") io_EOF 0%nat
                    Demo.loggedIn).2
  = [Debug ("FTP RECV: " +:+ Demo.received "quit" +:+ String LF "");
     Dispatch 0%nat handleQUIT;
     Debug ("Clean disconnect" +:+ String LF "")].
Proof.
unfold Demo.commandLoop.
rewrite (nil_reader_ends_session Demo.ascii_only Demo.ascii_only Demo.ascii_only Demo.handlers
           0 (Demo.received "quit") (Demo.received "NOOP") io_EOF 0%nat Demo.loggedIn).
- by split.
- reflexivity.
- discriminate.
- reflexivity.
Defined.
